(** * Branch resolution and push orchestration of Cresta-Open-Data

    A shallow embedding of the two git wrappers of the repository,
    [git_utils.py] (free functions) and [git_operations.py] (the
    [GitOperations] class), and the properties of their decision logic.

    The [git] executable is outside the program: it is a parameter of the
    development (an oracle that answers an argument vector in a repository
    state), and every function is a computation that threads the repository
    state and records the subprocesses it started.  [print] and [logging]
    calls are advisory diagnostics and are not part of the model. *)

From Stdlib Require Import List Bool Arith ZArith Lia.
From Stdlib Require Import Ascii String.
From Stdlib Require Import Permutation.
Import ListNotations.

Local Open Scope string_scope.
Local Open Scope list_scope.

(** ** Python string primitives *)

Module Py.

(** [str.isspace] on the ASCII range: tab, line feed, vertical tab, form
    feed, carriage return, the four separators 0x1c-0x1f and the space.
    Text is held as bytes: the white space beyond ASCII that [str.strip]
    also removes (no-break space, U+2028 and the like) is not recognised. *)
Definition is_space (c : ascii) : bool :=
  let n := nat_of_ascii c in
  ((9 <=? n)%nat && (n <=? 13)%nat) || ((28 <=? n)%nat && (n <=? 32)%nat).

Fixpoint lstrip (s : string) : string :=
  match s with
  | EmptyString => EmptyString
  | String c s' => if is_space c then lstrip s' else s
  end.

Fixpoint rstrip (s : string) : string :=
  match s with
  | EmptyString => EmptyString
  | String c s' =>
      match rstrip s' with
      | EmptyString => if is_space c then EmptyString else String c EmptyString
      | r => String c r
      end
  end.

(** [s.strip()] *)
Definition strip (s : string) : string := rstrip (lstrip s).

(** [s.startswith(p)] *)
Definition startswith (s p : string) : bool := String.prefix p s.

(** [s[n:]] *)
Fixpoint drop (n : nat) (s : string) : string :=
  match n, s with
  | O, _ => s
  | S _, EmptyString => EmptyString
  | S k, String _ s' => drop k s'
  end.

(** [s.endswith(p)] *)
Definition endswith (s p : string) : bool :=
  (String.length p <=? String.length s)%nat
  && String.eqb (drop (String.length s - String.length p) s) p.

(** [sub in s] *)
Fixpoint contains (sub s : string) : bool :=
  String.prefix sub s
  || match s with
     | EmptyString => false
     | String _ s' => contains sub s'
     end.

(** [s.split(sep)] for a non-empty separator: the pieces between the
    occurrences of [sep] found from left to right, without overlap.
    [skip] counts the characters of a matched separator still to pass. *)
Fixpoint split_from (sep : string) (skip : nat) (s : string) : list string :=
  match s with
  | EmptyString => [EmptyString]
  | String c s' =>
      match skip with
      | S k => split_from sep k s'
      | O =>
          if String.prefix sep s
          then EmptyString :: split_from sep (String.length sep - 1) s'
          else match split_from sep 0 s' with
               | piece :: rest => String c piece :: rest
               | [] => [String c EmptyString]
               end
      end
  end.

Definition split (s sep : string) : list string := split_from sep 0 s.

(** [s.replace(old, new)] for a non-empty [old]. *)
Fixpoint replace_from (old new : string) (skip : nat) (s : string) : string :=
  match s with
  | EmptyString => EmptyString
  | String c s' =>
      match skip with
      | S k => replace_from old new k s'
      | O =>
          if String.prefix old s
          then String.append new (replace_from old new (String.length old - 1) s')
          else String c (replace_from old new 0 s')
      end
  end.

Definition replace (s old new : string) : string := replace_from old new 0 s.

Definition lower_char (c : ascii) : ascii :=
  let n := nat_of_ascii c in
  if (65 <=? n)%nat && (n <=? 90)%nat then ascii_of_nat (n + 32) else c.

(** [s.lower()] on ASCII text *)
Fixpoint lower (s : string) : string :=
  match s with
  | EmptyString => EmptyString
  | String c s' => String (lower_char c) (lower s')
  end.

(** truthiness of a string: [if s:] *)
Definition truthy (s : string) : bool :=
  match s with EmptyString => false | _ => true end.

(** truthiness of an optional string: [None] and [''] are false *)
Definition given (s : option string) : bool :=
  match s with
  | Some t => truthy t
  | None => false
  end.

(** [x in xs] for a list of strings *)
Definition mem (x : string) (xs : list string) : bool :=
  existsb (String.eqb x) xs.

Definition nl : string := String (ascii_of_nat 10) EmptyString.

(** [xs[-1]] of a non-empty list ([split] never returns an empty one) *)
Definition last_piece (xs : list string) : string := List.last xs EmptyString.

End Py.

(** ** Subprocesses and the computation monad *)

(** What [subprocess.run] can do: return a completed process, or raise.
    Each exception carries its [str(e)].  With [text=True] the captured
    output is decoded after the process has ended: a process that ended
    with [returncode] and printed bytes that are not text makes
    [subprocess.run] raise a [UnicodeDecodeError] ([DecodeError]).
    [TimeoutExpired] is what an expired [timeout=] raises; [OtherException]
    stands for the rest, among them an executable that cannot be started. *)
Inductive py_exception : Type :=
| TimeoutExpired (text : string)
| DecodeError (returncode : Z) (text : string)
| OtherException (text : string).

Definition str_of_exception (e : py_exception) : string :=
  match e with
  | TimeoutExpired text => text
  | DecodeError _ text => text
  | OtherException text => text
  end.

Inductive run_outcome : Type :=
| Completed (returncode : Z) (stdout stderr : string)
| Raises (e : py_exception).

(** The environment of the program: the state of the machine (repository,
    remote, clock), what starting a subprocess with a working directory and
    a timeout does in it, the order in which [list(set(xs))] enumerates, and
    the text of [datetime.now().strftime('%Y-%m-%d %H:%M:%S')].

    Only runs in which [subprocess.run] returns or raises are modelled.
    With [timeout=30], as in [git_operations.py], it always does.
    [git_utils.py] passes no timeout: there a subprocess that never ends
    keeps the caller from returning, and such a run has no counterpart
    here. *)
Class Runtime : Type := {
  world : Type;
  subprocess_run :
    list string -> option string -> option Z -> world -> run_outcome * world;
  list_of_set : list string -> list string;
  strftime_now : world -> string
}.

(** One started subprocess: its argument vector and how it ended. *)
Definition event : Type := (list string * run_outcome)%type.

Definition argv_of (e : event) : list string := fst e.

(** A computation returns a value, the new state and the subprocesses it
    started, in order. *)
Definition M {R : Runtime} (A : Type) : Type := world -> A * world * list event.

Definition ret {R : Runtime} {A : Type} (a : A) : M A := fun w => (a, w, []).

Definition bind {R : Runtime} {A B : Type} (m : M A) (k : A -> M B) : M B :=
  fun w =>
    let '(a, w1, t1) := m w in
    let '(b, w2, t2) := k a w1 in
    (b, w2, t1 ++ t2).

Declare Scope git_scope.
Delimit Scope git_scope with git.
Notation "x <- m ;; k" := (bind m (fun x => k))
  (at level 100, m at next level, right associativity) : git_scope.
Notation "' p <- m ;; k" := (bind m (fun p => k))
  (at level 100, p pattern, m at next level, right associativity) : git_scope.
Local Open Scope git_scope.

Definition value {R : Runtime} {A : Type} (r : A * world * list event) : A :=
  fst (fst r).
Definition final {R : Runtime} {A : Type} (r : A * world * list event) : world :=
  snd (fst r).
Definition started {R : Runtime} {A : Type} (r : A * world * list event) : list event :=
  snd r.

(** [subprocess.run(argv, cwd=..., timeout=..., capture_output=True, text=True)] *)
Definition spawn {R : Runtime} (argv : list string) (cwd : option string)
    (timeout : option Z) : M run_outcome :=
  fun w =>
    let '(o, w') := subprocess_run argv cwd timeout w in
    (o, w', [(argv, o)]).

(** The commands of a trace. *)
Definition commands (t : list event) : list (list string) := map argv_of t.

(** ** git_utils.py *)

Module GitUtils.

(** The namespace [argparse] builds in [main]. *)
Record args : Type := {
  branch : option string;
  force : bool;
  push : bool;
  switch : bool
}.

Section Code.
Context {R : Runtime}.

(** [run_git_command(command, cwd=None)] *)
Definition run_git_command (command : list string) (cwd : option string)
  : M (bool * string) :=
  o <- spawn command cwd None ;;
  ret match o with
      | Completed returncode stdout stderr =>
          (Z.eqb returncode 0, (Py.strip stdout ++ Py.strip stderr)%string)
      | Raises e => (false, str_of_exception e)
      end.

(** The body of the loop over the lines of [git branch]. *)
Definition local_step (branches : list string) (line0 : string) : list string :=
  let line := Py.strip line0 in
  if Py.truthy line && negb (Py.startswith line "*") then branches ++ [line]
  else if Py.startswith line "* " then
    let branch_name := Py.strip (Py.drop 2 line) in
    if negb (Py.startswith branch_name "(") then branches ++ [branch_name]
    else branches
  else branches.

(** The body of the loop over the lines of [git branch -r]. *)
Definition remote_step (branches : list string) (line0 : string) : list string :=
  let line := Py.strip line0 in
  if Py.truthy line && negb (Py.startswith line "origin/HEAD") then
    if Py.startswith line "origin/" then
      let branch_name := Py.drop 7 line in
      if negb (Py.mem branch_name branches) then branches ++ [branch_name]
      else branches
    else branches
  else branches.

Definition parse_local (success : bool) (output : string) : list string :=
  if success then fold_left local_step (Py.split output Py.nl) [] else [].

Definition parse_remote (branches : list string) (success : bool)
    (output : string) : list string :=
  if success then fold_left remote_step (Py.split output Py.nl) branches
  else branches.

Definition get_available_branches : M (list string) :=
  '(success, output) <- run_git_command ["git"; "branch"] None ;;
  let branches := parse_local success output in
  '(success, output) <- run_git_command ["git"; "branch"; "-r"] None ;;
  let branches := parse_remote branches success output in
  ret (list_of_set branches).

Definition is_detached_head : M bool :=
  '(success, output) <- run_git_command ["git"; "branch"] None ;;
  ret (success
       && existsb (fun line => Py.startswith (Py.strip line) "* (HEAD detached")
            (Py.split output Py.nl)).

Definition default_candidates : list string :=
  ["main"; "master"; "develop"; "development"].

Definition get_default_branch : M (option string) :=
  '(success, output) <-
    run_git_command ["git"; "symbolic-ref"; "refs/remotes/origin/HEAD"] None ;;
  if success && Py.contains "refs/remotes/origin/" output then
    ret (Some (Py.strip (Py.last_piece (Py.split output "refs/remotes/origin/"))))
  else
    available_branches <- get_available_branches ;;
    match find (fun candidate => Py.mem candidate available_branches)
            default_candidates with
    | Some candidate => ret (Some candidate)
    | None => ret (hd_error available_branches)
    end.

Definition create_branch_from_remote (branch_name : string) : M bool :=
  '(success, _) <-
    run_git_command
      ["git"; "show-ref"; "--verify"; "--quiet";
       ("refs/remotes/origin/" ++ branch_name)%string] None ;;
  if success then
    '(success, _) <-
      run_git_command
        ["git"; "checkout"; "-b"; branch_name; ("origin/" ++ branch_name)%string]
        None ;;
    ret success
  else
    '(success, _) <-
      run_git_command ["git"; "checkout"; "-b"; branch_name] None ;;
    ret success.

(** One round of the loop over [alternatives] of [switch_to_branch]: an
    alternative that is listed is checked out, one that is not is created;
    the loop returns at the first round that succeeds. *)
Definition attempt (available_branches : list string) (alt_branch : string)
  : M bool :=
  if Py.mem alt_branch available_branches then
    '(success, _) <- run_git_command ["git"; "checkout"; alt_branch] None ;;
    ret success
  else create_branch_from_remote alt_branch.

Fixpoint try_alternatives (available_branches alternatives : list string)
  : M bool :=
  match alternatives with
  | [] => ret false
  | alt_branch :: rest =>
      done <- attempt available_branches alt_branch ;;
      if done then ret true
      else try_alternatives available_branches rest
  end.

Definition alternatives_for (target_branch : string) : list string :=
  if negb (Py.mem target_branch ["main"; "master"]) then ["main"; "master"]
  else ["master"; "main"].

(** [switch_to_branch] once the target is known. *)
Definition switch_to_named (target_branch : string) : M bool :=
  '(success, _) <- run_git_command ["git"; "checkout"; target_branch] None ;;
  if success then ret true
  else
    available_branches <- get_available_branches ;;
    if negb (Py.mem target_branch available_branches) then
      created <- create_branch_from_remote target_branch ;;
      if created then ret true
      else try_alternatives available_branches (alternatives_for target_branch)
    else ret false.

(** [switch_to_branch(target_branch=None)] *)
Definition switch_to_branch (target_branch : option string) : M bool :=
  match target_branch with
  | Some target => switch_to_named target
  | None =>
      default <- get_default_branch ;;
      match default with
      | None => ret false
      | Some target => switch_to_named target
      end
  end.

Definition indicates_missing_upstream (output : string) : bool :=
  Py.contains "no upstream branch" (Py.lower output)
  || Py.contains "set-upstream" (Py.lower output).

(** The part of [execute_git_push] from the second query of the current
    branch to the end. *)
Definition push_current (force : bool) : M bool :=
  '(success, current_branch) <-
    run_git_command ["git"; "branch"; "--show-current"] None ;;
  if negb success || negb (Py.truthy current_branch) then ret false
  else
    let push_cmd :=
      ["git"; "push"] ++ (if force then ["--force"] else [])
      ++ ["origin"; current_branch] in
    '(success, output) <- run_git_command push_cmd None ;;
    if success then ret true
    else if indicates_missing_upstream output then
      '(success, _) <-
        run_git_command
          ["git"; "push"; "--set-upstream"; "origin"; current_branch] None ;;
      ret success
    else ret false.

(** [execute_git_push(target_branch=None, force=False)] *)
Definition execute_git_push (target_branch : option string) (force : bool)
  : M bool :=
  '(success, _) <- run_git_command ["git"; "status"; "--porcelain"] None ;;
  if negb success then ret false
  else
    detached <- is_detached_head ;;
    if detached then
      switched <- switch_to_branch target_branch ;;
      if negb switched then ret false else push_current force
    else
      '(success, current_branch) <-
        run_git_command ["git"; "branch"; "--show-current"] None ;;
      if success && Py.truthy current_branch then push_current force
      else if Py.given target_branch then
        switched <- switch_to_branch target_branch ;;
        if negb switched then ret false else push_current force
      else push_current force.

(** [sys.exit(0 if success else 1)] *)
Definition exit_status (success : bool) : Z := if success then 0%Z else 1%Z.

(** [main()], from the parsed arguments on: [--switch] is looked at before
    [--push]; without either the repository is only described. *)
Definition main (a : args) : M Z :=
  if switch a then
    success <- switch_to_branch (branch a) ;;
    ret (exit_status success)
  else if push a then
    success <- execute_git_push (branch a) (force a) ;;
    ret (exit_status success)
  else
    _ <- is_detached_head ;;
    _ <- get_available_branches ;;
    _ <- get_default_branch ;;
    ret 0%Z.

End Code.
End GitUtils.

(** ** git_operations.py *)

Module GitOperations.

(** The object: its only field read by the methods is [repo_path]. *)
Record t : Type := { repo_path : string }.

(** [GitOperations(repo_path=".")] *)
Definition init : t := {| repo_path := "." |}.

Section Code.
Context {R : Runtime}.
Variable self : t.

(** [run_git_command(command, capture_output=True)].  Without capture the
    completed process has [stdout = stderr = None], and [.strip()] raises
    an [AttributeError] that the last handler catches. *)
Definition run_git_command (command : list string) (capture_output : bool)
  : M (bool * string) :=
  o <- spawn (["git"; "--no-pager"] ++ command) (Some (repo_path self))
         (Some 30%Z) ;;
  ret match o with
      | Completed returncode stdout stderr =>
          if capture_output then
            if Z.eqb returncode 0 then (true, Py.strip stdout)
            else (false, Py.strip stderr)
          else
            (false,
             "Git command failed: 'NoneType' object has no attribute 'strip'")
      | Raises (TimeoutExpired _) => (false, "Git command timed out")
      | Raises (DecodeError _ text) =>
          (false, ("Git command failed: " ++ text)%string)
      | Raises (OtherException text) =>
          (false, ("Git command failed: " ++ text)%string)
      end.

Definition get_current_branch : M (option string) :=
  '(success, output) <- run_git_command ["branch"; "--show-current"] true ;;
  if success && Py.truthy output then ret (Some output) else ret None.

Definition is_detached_head : M bool :=
  current <- get_current_branch ;;
  ret match current with
      | None => true
      | Some _ => false
      end.

Definition parse_local (success : bool) (output : string) : list string :=
  if success then
    map Py.strip
      (filter (fun branch => Py.truthy (Py.strip branch))
         (Py.split output Py.nl))
  else [].

Definition parse_remote (success : bool) (output : string) : list string :=
  if success then
    map (fun branch => Py.replace (Py.strip branch) "origin/" "")
      (filter
         (fun branch =>
            Py.truthy (Py.strip branch)
            && negb (Py.endswith (Py.strip branch) "/HEAD"))
         (Py.split output Py.nl))
  else [].

Definition get_available_branches : M (list string * list string) :=
  '(local_success, local_output) <-
    run_git_command ["branch"; "--format=%(refname:short)"] true ;;
  let local_branches := parse_local local_success local_output in
  '(remote_success, remote_output) <-
    run_git_command ["branch"; "-r"; "--format=%(refname:short)"] true ;;
  let remote_branches := parse_remote remote_success remote_output in
  ret (local_branches, remote_branches).

Definition fetch_remote_branches : M bool :=
  '(success, _) <- run_git_command ["fetch"; "origin"] true ;;
  ret success.

Definition create_branch_from_remote (branch_name : string) : M bool :=
  '(success, _) <-
    run_git_command
      ["fetch"; "origin"; (branch_name ++ ":" ++ branch_name)%string] true ;;
  ret success.

(** [create_new_branch(branch_name, base_branch=None)] *)
Definition create_new_branch (branch_name : string)
    (base_branch : option string) : M bool :=
  let command :=
    ["checkout"; "-b"; branch_name]
    ++ match base_branch with
       | Some base => if Py.truthy base then [base] else []
       | None => []
       end in
  '(success, _) <- run_git_command command true ;;
  ret success.

Definition switch_to_branch (branch_name : string) : M bool :=
  '(success, _) <- run_git_command ["checkout"; branch_name] true ;;
  ret success.

Definition priority_branches : list string := ["main"; "master"; "develop"].

Definition find_best_branch : M (option string) :=
  _ <- fetch_remote_branches ;;
  '(local_branches, remote_branches) <- get_available_branches ;;
  let all_available_branches := list_of_set (local_branches ++ remote_branches) in
  match find (fun preferred_branch => Py.mem preferred_branch all_available_branches)
          priority_branches with
  | Some preferred_branch => ret (Some preferred_branch)
  | None => ret (hd_error all_available_branches)
  end.

Definition ensure_branch_available (branch_name : string) : M bool :=
  '(local_branches, remote_branches) <- get_available_branches ;;
  if Py.mem branch_name local_branches then ret true
  else if Py.mem branch_name remote_branches then
    create_branch_from_remote branch_name
  else create_new_branch branch_name None.

(** The loop [for file in files] of [execute_git_push]: [true] when every
    [add] succeeded, [false] at the first one that failed. *)
Fixpoint stage_each (files : list string) : M bool :=
  match files with
  | [] => ret true
  | file :: rest =>
      '(success, _) <- run_git_command ["add"; file] true ;;
      if success then stage_each rest else ret false
  end.

(** [if files: ... else: add "."] *)
Definition stage (files : option (list string)) : M bool :=
  match files with
  | Some (file :: rest) => stage_each (file :: rest)
  | _ =>
      '(success, _) <- run_git_command ["add"; "."] true ;;
      ret success
  end.

(** [message or f"自動コミット {datetime.now().strftime(...)}"] *)
Definition commit_message (message : option string) : M string :=
  match message with
  | Some m =>
      if Py.truthy m then ret m
      else fun w => (("自動コミット " ++ strftime_now w)%string, w, [])
  | None => fun w => (("自動コミット " ++ strftime_now w)%string, w, [])
  end.

(** [target_branch = "main"] and its creation, when no branch was found. *)
Definition create_default_branch : M (option string) :=
  created <- create_new_branch "main" None ;;
  if negb created then ret None else ret (Some "main").

(** Lines 271-297: the branch to push, after leaving a detached HEAD.
    [None] stands for the early [return False]. *)
Definition resolve_current_branch : M (option string) :=
  current_branch <- get_current_branch ;;
  if Py.given current_branch then ret current_branch
  else
    target_branch <- find_best_branch ;;
    if negb (Py.given target_branch) then create_default_branch
    else
      let target := match target_branch with Some b => b | None => "" end in
      available <- ensure_branch_available target ;;
      if negb available then ret None
      else
        switched <- switch_to_branch target ;;
        if negb switched then ret None else ret (Some target).

(** Lines 327-340. *)
Definition push_branch (current_branch : string) : M bool :=
  '(success, _) <- run_git_command ["push"; "origin"; current_branch] true ;;
  if negb success then
    '(success, _) <-
      run_git_command ["push"; "-u"; "origin"; current_branch] true ;;
    ret success
  else ret success.

(** Lines 299-340. *)
Definition stage_commit_push (current_branch : string)
    (message : option string) (files : option (list string)) : M bool :=
  staged <- stage files ;;
  if negb staged then ret false
  else
    '(success, _) <- run_git_command ["diff"; "--cached"; "--quiet"] true ;;
    if success then ret true
    else
      msg <- commit_message message ;;
      '(success, _) <- run_git_command ["commit"; "-m"; msg] true ;;
      if negb success then ret false
      else push_branch current_branch.

(** [execute_git_push(message=None, files=None)] *)
Definition execute_git_push (message : option string)
    (files : option (list string)) : M bool :=
  resolved <- resolve_current_branch ;;
  match resolved with
  | None => ret false
  | Some current_branch => stage_commit_push current_branch message files
  end.

End Code.

(** The namespace [argparse] builds in [main]; [--files] takes any number
    of paths. *)
Record args : Type := {
  message : option string;
  files : option (list string);
  test_branch : option string
}.

(** [main()], from the parsed arguments on, with the exit status of the
    process: [sys.exit(1)] on failure, 0 when [main] returns. *)
Definition main {R : Runtime} (a : args) : M Z :=
  if Py.given (test_branch a) then
    let name := match test_branch a with Some b => b | None => "" end in
    available <- ensure_branch_available init name ;;
    if available then
      success <- switch_to_branch init name ;;
      if success then ret 0%Z else ret 1%Z
    else ret 1%Z
  else
    success <- execute_git_push init (message a) (files a) ;;
    if negb success then ret 1%Z else ret 0%Z.

End GitOperations.

(** ** Test doubles for the environment *)

(** A scripted [git]: a table from argument vectors to outcomes, a default
    outcome for the rest, and no state. *)
Module Scripted.

Fixpoint argv_eqb (a b : list string) : bool :=
  match a, b with
  | [], [] => true
  | x :: a', y :: b' => String.eqb x y && argv_eqb a' b'
  | _, _ => false
  end.

Definition script : Type := list (list string * run_outcome).

Fixpoint answer (table : script) (default : run_outcome) (argv : list string)
  : run_outcome :=
  match table with
  | [] => default
  | (a, o) :: rest => if argv_eqb a argv then o else answer rest default argv
  end.

Definition runtime (table : script) (default : run_outcome) : Runtime :=
  {| world := unit;
     subprocess_run := fun argv _ _ w => (answer table default argv, w);
     list_of_set := nodup string_dec;
     strftime_now := fun _ => "2025-08-16 12:00:00" |}.

(** The same, with [list(set(xs))] enumerating in reverse. *)
Definition runtime_rev (table : script) (default : run_outcome) : Runtime :=
  {| world := unit;
     subprocess_run := fun argv _ _ w => (answer table default argv, w);
     list_of_set := fun xs => rev (nodup string_dec xs);
     strftime_now := fun _ => "2025-08-16 12:00:00" |}.

Definition ok (stdout : string) : run_outcome := Completed 0 stdout "".
Definition failed (stderr : string) : run_outcome := Completed 1 "" stderr.
Definition not_found : run_outcome :=
  Raises (OtherException "[Errno 2] No such file or directory: 'git'").

End Scripted.

(** A small stateful [git]: the local branches and the branch HEAD is on,
    if any. *)
Module ToyGit.

Record repo : Type := {
  head : option string;
  locals : list string
}.

Definition show_current (r : repo) : string :=
  match head r with
  | Some b => b
  | None => ""
  end.

Definition checkout (b : string) (r : repo) : run_outcome * repo :=
  if Py.mem b (locals r) then
    (Completed 0 "" ("Switched to branch '" ++ b ++ "'")%string,
     {| head := Some b; locals := locals r |})
  else
    (Completed 1 ""
       ("error: pathspec '" ++ b ++ "' did not match any file(s) known to git")%string,
     r).

(** The line of [git branch] for the local branch [b]. *)
Definition branch_line (r : repo) (b : string) : string :=
  match head r with
  | Some h => if String.eqb h b then ("* " ++ b)%string else ("  " ++ b)%string
  | None => ("  " ++ b)%string
  end.

Fixpoint unlines (lines : list string) : string :=
  match lines with
  | [] => ""
  | line :: rest =>
      match rest with
      | [] => line
      | _ => (line ++ Py.nl ++ unlines rest)%string
      end
  end.

(** What [git branch] prints. *)
Definition listing (r : repo) : string :=
  unlines
    (match head r with
     | Some _ => []
     | None => ["* (HEAD detached at 1a2b3c4)"]
     end ++ map (branch_line r) (locals r)).

Definition git (args : list string) (r : repo) : run_outcome * repo :=
  match args with
  | ["checkout"; b] => checkout b r
  | ["branch"; "--show-current"] => (Completed 0 (show_current r) "", r)
  | ["branch"] => (Completed 0 (listing r) "", r)
  | _ => (Completed 1 "" "fatal: not supported", r)
  end.

Definition run (argv : list string) (r : repo) : run_outcome * repo :=
  match argv with
  | "git" :: "--no-pager" :: args => git args r
  | "git" :: args => git args r
  | _ => (Raises (OtherException "[Errno 2] No such file or directory"), r)
  end.

Definition runtime : Runtime :=
  {| world := repo;
     subprocess_run := fun argv _ _ r => run argv r;
     list_of_set := nodup string_dec;
     strftime_now := fun _ => "2025-08-16 12:00:00" |}.

(** The same repositories, with a [git] that hangs until the timeout. *)
Definition runtime_hung : Runtime :=
  {| world := repo;
     subprocess_run :=
       fun argv _ _ r =>
         (Raises (TimeoutExpired "Command timed out after 30 seconds"), r);
     list_of_set := nodup string_dec;
     strftime_now := fun _ => "2025-08-16 12:00:00" |}.

End ToyGit.

(** ** Vocabulary of the statements *)

(** [list(set(xs))] enumerates every element of [xs] once, in some order. *)
Definition set_semantics (R : Runtime) : Prop :=
  forall xs : list string,
    NoDup (list_of_set xs) /\ forall x, In x (list_of_set xs) <-> In x xs.

(** [subprocess.run] returned a completed process, and its return code
    is 0. *)
Definition exit_zero (o : run_outcome) : bool :=
  match o with
  | Completed returncode _ _ => Z.eqb returncode 0
  | Raises _ => false
  end.

(** The status the process exited with, where it ran to its end: the
    return code of the completed process, or the one lost behind a
    decoding error.  A process that timed out or never started has none. *)
Definition process_exit_status (o : run_outcome) : option Z :=
  match o with
  | Completed returncode _ _ => Some returncode
  | Raises (DecodeError returncode _) => Some returncode
  | Raises _ => None
  end.

(** What [git_utils.run_git_command] reads from an outcome. *)
Definition utils_output (o : run_outcome) : string :=
  match o with
  | Completed _ stdout stderr => (Py.strip stdout ++ Py.strip stderr)%string
  | Raises e => str_of_exception e
  end.

(** What [GitOperations.run_git_command] reads from an outcome. *)
Definition ops_output (o : run_outcome) : string :=
  match o with
  | Completed returncode stdout stderr =>
      if Z.eqb returncode 0 then Py.strip stdout else Py.strip stderr
  | Raises (TimeoutExpired _) => "Git command timed out"
  | Raises (DecodeError _ text) => ("Git command failed: " ++ text)%string
  | Raises (OtherException text) => ("Git command failed: " ++ text)%string
  end.

(** The argument vectors of [git_operations.py], as the subprocess sees them. *)
Definition ops_argv (command : list string) : list string :=
  ["git"; "--no-pager"] ++ command.

(** The outcome of a command started in state [w] by either module. *)
Definition utils_outcome {R : Runtime} (command : list string) (w : world)
  : run_outcome :=
  fst (subprocess_run command None None w).

Definition ops_outcome {R : Runtime} (self : GitOperations.t)
    (command : list string) (w : world) : run_outcome :=
  fst (subprocess_run (ops_argv command) (Some (GitOperations.repo_path self))
         (Some 30%Z) w).

(** The text a completed process wrote on its standard output. *)
Definition stdout_of (o : run_outcome) : string :=
  match o with
  | Completed _ stdout _ => stdout
  | Raises _ => ""
  end.

(** The marker line of [git branch] that [git_utils.is_detached_head] looks
    for. *)
Definition detached_marker (line : string) : bool :=
  Py.startswith (Py.strip line) "* (HEAD detached".

(** The state after a command of either module started in [w]. *)
Definition ops_after {R : Runtime} (self : GitOperations.t)
    (command : list string) (w : world) : world :=
  snd (subprocess_run (ops_argv command) (Some (GitOperations.repo_path self))
         (Some 30%Z) w).

Definition utils_after {R : Runtime} (command : list string) (w : world)
  : world :=
  snd (subprocess_run command None None w).

(** The names [git_utils.get_available_branches] collects, before the
    conversion to a set: those of [git branch], then those of
    [git branch -r]. *)
Definition utils_local_names {R : Runtime} (w : world) : list string :=
  let o := utils_outcome ["git"; "branch"] w in
  GitUtils.parse_local (exit_zero o) (utils_output o).

Definition utils_collected {R : Runtime} (w : world) : list string :=
  let o := utils_outcome ["git"; "branch"; "-r"]
             (utils_after ["git"; "branch"] w) in
  GitUtils.parse_remote (utils_local_names w) (exit_zero o) (utils_output o).

Definition symbolic_ref : list string :=
  ["git"; "symbolic-ref"; "refs/remotes/origin/HEAD"].

(** The remote default branch, as [get_default_branch] reads it from the
    outcome of [git symbolic-ref refs/remotes/origin/HEAD]. *)
Definition remote_default (o : run_outcome) : option string :=
  if exit_zero o && Py.contains "refs/remotes/origin/" (utils_output o)
  then Some (Py.strip
               (Py.last_piece (Py.split (utils_output o) "refs/remotes/origin/")))
  else None.

(** [c] is the first name of [priority] that occurs in [available]. *)
Definition first_present (priority available : list string) (c : string)
  : Prop :=
  exists before after,
    priority = before ++ c :: after
    /\ In c available
    /\ forall c', In c' before -> ~ In c' available.

(** The answer of [get_default_branch] once the available branches are
    known: the first candidate among them, else the first of them. *)
Definition pick (priority available : list string) : option string :=
  match find (fun candidate => Py.mem candidate available) priority with
  | Some candidate => Some candidate
  | None => hd_error available
  end.

(** The two lists [git_operations.get_available_branches] returns in [w]. *)
Definition ops_local_names {R : Runtime} (self : GitOperations.t) (w : world)
  : list string :=
  fst (value (GitOperations.get_available_branches self w)).

Definition ops_remote_names {R : Runtime} (self : GitOperations.t) (w : world)
  : list string :=
  snd (value (GitOperations.get_available_branches self w)).

(** The name a line of [git branch] contributes in [git_utils.py], if any:
    the line itself when it does not start with a star, the text after the
    star of the current branch unless it opens a parenthesis. *)
Definition local_name (line0 : string) : option string :=
  let line := Py.strip line0 in
  if Py.truthy line && negb (Py.startswith line "*") then Some line
  else if Py.startswith line "* " then
    let branch_name := Py.strip (Py.drop 2 line) in
    if negb (Py.startswith branch_name "(") then Some branch_name else None
  else None.

(** The name a line of [git branch -r] contributes in [git_utils.py], if
    any: what follows [origin/], unless the line starts with [origin/HEAD]. *)
Definition origin_name (line0 : string) : option string :=
  let line := Py.strip line0 in
  if Py.truthy line && negb (Py.startswith line "origin/HEAD") then
    if Py.startswith line "origin/" then Some (Py.drop 7 line) else None
  else None.

(** [name] is a short name for the entry [line] of the remote listing:
    [x] for an entry [origin/x], and [x] for an entry [x] of another
    remote, where [x] holds no [origin/] of its own.  What an entry with a
    further [origin/] inside is shortened to is left open. *)
Definition shortens (line name : string) : Prop :=
  forall x : string,
    Py.contains "origin/" x = false ->
    (Py.strip line = ("origin/" ++ x)%string -> name = x)
    /\ (Py.strip line = x -> name = x).

(** The entries of the remote listing that [git_operations.py] keeps. *)
Definition ops_kept (branch : string) : bool :=
  Py.truthy (Py.strip branch) && negb (Py.endswith (Py.strip branch) "/HEAD").

(** The lines of the two listings of [git_utils.get_available_branches];
    a listing that failed has none. *)
Definition utils_local_lines {R : Runtime} (w : world) : list string :=
  let o := utils_outcome ["git"; "branch"] w in
  if exit_zero o then Py.split (utils_output o) Py.nl else [].

Definition utils_remote_lines {R : Runtime} (w : world) : list string :=
  let o := utils_outcome ["git"; "branch"; "-r"]
             (utils_after ["git"; "branch"] w) in
  if exit_zero o then Py.split (utils_output o) Py.nl else [].

(** The lines of the two listings of [git_operations.get_available_branches]. *)
Definition ops_local_lines {R : Runtime} (self : GitOperations.t) (w : world)
  : list string :=
  let o := ops_outcome self ["branch"; "--format=%(refname:short)"] w in
  if exit_zero o then Py.split (ops_output o) Py.nl else [].

Definition ops_remote_lines {R : Runtime} (self : GitOperations.t) (w : world)
  : list string :=
  let w1 := ops_after self ["branch"; "--format=%(refname:short)"] w in
  let o := ops_outcome self ["branch"; "-r"; "--format=%(refname:short)"] w1 in
  if exit_zero o then Py.split (ops_output o) Py.nl else [].

Definition checkout_cmd (branch : string) : list string :=
  ["git"; "checkout"; branch].

Definition show_ref_cmd (branch : string) : list string :=
  ["git"; "show-ref"; "--verify"; "--quiet";
   ("refs/remotes/origin/" ++ branch)%string].

(** The command by which [git_utils.create_branch_from_remote] creates a
    branch: tracking [origin/<branch>] when [show-ref] found that ref, from
    the current HEAD otherwise. *)
Definition create_cmd (remote_exists : bool) (branch : string) : list string :=
  if remote_exists
  then ["git"; "checkout"; "-b"; branch; ("origin/" ++ branch)%string]
  else ["git"; "checkout"; "-b"; branch].

(** The first command of a trace, if any. *)
Definition first_command (t : list event) : option (list string) :=
  hd_error (commands t).

(** The git subcommand of a subprocess of [git_operations.py]: the word
    after [git --no-pager]. *)
Definition subcommand (e : event) : string := nth 2 (argv_of e) "".

(** A computation that only starts the subcommands of [allowed]. *)
Definition emits {R : Runtime} {A : Type} (allowed : list string) (m : M A)
  : Prop :=
  forall w : world,
    Forall (fun e => In (subcommand e) allowed) (started (m w)).

Definition diff_args : list string := ["diff"; "--cached"; "--quiet"].

(** The trace [t] ends with a subprocess that [good] accepts and that
    exited with status 0. *)
Definition ends_ok (good : list string -> bool) (t : list event) : Prop :=
  exists before cmd o,
    t = before ++ [(cmd, o)] /\ good cmd = true /\ exit_zero o = true.

(** The trace [t] ends with the trace [suffix]. *)
Definition ends_with (suffix t : list event) : Prop :=
  exists before, t = before ++ suffix.

(** The argument vector is [git <sub> ...]. *)
Definition is_git (sub : string) (cmd : list string) : bool :=
  match cmd with
  | g :: s :: _ => String.eqb g "git" && String.eqb s sub
  | _ => false
  end.

(** The argument vector is [git --no-pager <sub> ...]. *)
Definition is_ops (sub : string) (cmd : list string) : bool :=
  match cmd with
  | g :: p :: s :: _ =>
      String.eqb g "git" && String.eqb p "--no-pager" && String.eqb s sub
  | _ => false
  end.

(** The git subcommand of a subprocess of [git_utils.py]: the word after
    [git]. *)
Definition utils_subcommand (e : event) : string := nth 1 (argv_of e) "".

(** A computation of [git_utils.py] that only starts the subcommands of
    [allowed]. *)
Definition utils_emits {R : Runtime} {A : Type} (allowed : list string)
    (m : M A) : Prop :=
  forall w : world,
    Forall (fun e => In (utils_subcommand e) allowed) (started (m w)).

Definition status_cmd : list string := ["git"; "status"; "--porcelain"].

Definition show_current_cmd : list string := ["git"; "branch"; "--show-current"].

(** [git push [--force] origin <branch>] *)
Definition push_cmd (force : bool) (branch : string) : list string :=
  if force then ["git"; "push"; "--force"; "origin"; branch]
  else ["git"; "push"; "origin"; branch].

Definition set_upstream_cmd (branch : string) : list string :=
  ["git"; "push"; "--set-upstream"; "origin"; branch].

(** The paths [GitOperations.execute_git_push] stages: the files given,
    or [.] when none is given or the list is empty. *)
Definition staged_paths (files : option (list string)) : list string :=
  match files with
  | Some (file :: rest) => file :: rest
  | _ => ["."]
  end.

Definition add_cmd (path : string) : list string := ops_argv ["add"; path].

(** Whether each subprocess of a trace exited with status 0. *)
Definition successes (t : list event) : list bool :=
  map (fun e => exit_zero (snd e)) t.

(** The message [GitOperations.execute_git_push] commits with, in the
    state [w] where it reads the clock: the caller's, or a dated default
    when there is none or it is empty. *)
Definition message_used {R : Runtime} (message : option string) (w : world)
  : string :=
  match message with
  | Some m => if Py.truthy m then m else ("自動コミット " ++ strftime_now w)%string
  | None => ("自動コミット " ++ strftime_now w)%string
  end.

Definition commit_args (msg : string) : list string := ["commit"; "-m"; msg].

Definition ops_show_current : list string := ["branch"; "--show-current"].

Definition ops_local_listing : list string :=
  ["branch"; "--format=%(refname:short)"].

Definition ops_remote_listing : list string :=
  ["branch"; "-r"; "--format=%(refname:short)"].

(** [git fetch origin <name>:<name>] *)
Definition fetch_branch_args (name : string) : list string :=
  ["fetch"; "origin"; (name ++ ":" ++ name)%string].

(** ** Concrete environments used by the examples *)

Module Worlds.
Import Scripted.

(** No [git] executable: every subprocess fails to start. *)
Definition no_git : Runtime := runtime [] not_found.

Definition unreachable : string :=
  "fatal: unable to access 'https://example.invalid/repo.git/': Could not resolve host: example.invalid".

(** On [main] with a change to commit; the first push meets a network
    error, the second one goes through. *)
Definition flaky_network : Runtime :=
  runtime
    [ (ops_argv ["branch"; "--show-current"], ok "main");
      (ops_argv ["add"; "."], ok "");
      (ops_argv diff_args, Completed 1 "" "");
      (ops_argv ["commit"; "-m"; "fix"], ok "[main 1a2b3c4] fix");
      (ops_argv ["push"; "origin"; "main"], failed unreachable);
      (ops_argv ["push"; "-u"; "origin"; "main"],
       ok "branch 'main' set up to track 'origin/main'.") ]
    (failed "fatal: unexpected command").

(** A local branch whose name is Latin-1 text ([caf] and the byte 0xe9):
    [git] lists it and exits with status 0, and the output is not UTF-8. *)
Definition undecodable : run_outcome :=
  Raises
    (DecodeError 0
       "'utf-8' codec can't decode byte 0xe9 in position 5: invalid continuation byte").

Definition latin1_branch : Runtime :=
  runtime
    [ (["git"; "branch"], undecodable);
      (ops_argv ["branch"; "--format=%(refname:short)"], undecodable) ]
    (failed "fatal: unexpected command").

(** A branch named [origin/main] was pushed to the remote by mistake, next
    to [main]. *)
Definition stray_remote_branch : Runtime :=
  runtime
    [ (ops_argv ["branch"; "--format=%(refname:short)"], ok "main");
      (ops_argv ["branch"; "-r"; "--format=%(refname:short)"],
       ok ("origin/HEAD" ++ Py.nl ++ "origin/main" ++ Py.nl
           ++ "origin/origin/main")%string) ]
    (failed "fatal: unexpected command").

(** Detached HEAD; three local branches, [origin/HEAD] unset. *)
Definition detached_three (make : script -> run_outcome -> Runtime) : Runtime :=
  make
    [ (["git"; "branch"],
       ok ("* (HEAD detached at 1a2b3c4)" ++ Py.nl ++ "  develop" ++ Py.nl
           ++ "  main" ++ Py.nl ++ "  master")%string);
      (["git"; "branch"; "-r"],
       ok ("  origin/HEAD -> origin/main" ++ Py.nl ++ "  origin/main" ++ Py.nl
           ++ "  origin/feature-x")%string) ]
    (failed "fatal: ref refs/remotes/origin/HEAD is not a symbolic ref").

(** [origin/HEAD] points at [trunk]; [main] and [trunk] exist locally and
    on the remote. *)
Definition remote_head_trunk : Runtime :=
  runtime
    [ (symbolic_ref, ok "refs/remotes/origin/trunk");
      (["git"; "branch"], ok ("* main" ++ Py.nl ++ "  trunk")%string);
      (["git"; "branch"; "-r"],
       ok ("  origin/HEAD -> origin/trunk" ++ Py.nl ++ "  origin/main" ++ Py.nl
           ++ "  origin/trunk")%string);
      (ops_argv ["fetch"; "origin"], ok "");
      (ops_argv ["branch"; "--format=%(refname:short)"],
       ok ("main" ++ Py.nl ++ "trunk")%string);
      (ops_argv ["branch"; "-r"; "--format=%(refname:short)"],
       ok ("origin/HEAD" ++ Py.nl ++ "origin/main" ++ Py.nl ++ "origin/trunk")%string) ]
    (failed "fatal: unexpected command").

(** Two local branches, [alpha] and [development], and no remote. *)
Definition alpha_development : Runtime :=
  runtime
    [ (["git"; "branch"], ok ("* alpha" ++ Py.nl ++ "  development")%string);
      (["git"; "branch"; "-r"], ok "");
      (ops_argv ["branch"; "--format=%(refname:short)"],
       ok ("alpha" ++ Py.nl ++ "development")%string);
      (ops_argv ["branch"; "-r"; "--format=%(refname:short)"], ok "") ]
    (failed "fatal: unexpected command").

(** Detached HEAD; [feature] and [main] exist locally, and local changes
    keep [git] from checking out [feature]; [main] could be checked out. *)
Definition blocked_checkout : Runtime :=
  runtime
    [ (checkout_cmd "feature",
       failed "error: Your local changes to the following files would be overwritten by checkout");
      (["git"; "branch"],
       ok ("* (HEAD detached at 1a2b3c4)" ++ Py.nl ++ "  feature" ++ Py.nl
           ++ "  main")%string);
      (["git"; "branch"; "-r"], ok "");
      (checkout_cmd "main", ok "Switched to branch 'main'") ]
    (failed "fatal: unexpected command").

(** A repository without commits, branches or remote, and a [git] that
    does not know [--show-current] yet. *)
Definition no_branches : Runtime :=
  runtime
    [ (["git"; "branch"], ok "");
      (["git"; "branch"; "-r"], ok "");
      (ops_argv ["branch"; "--show-current"],
       Completed 129 "" "error: unknown option `show-current'");
      (ops_argv ["branch"; "--format=%(refname:short)"], ok "");
      (ops_argv ["branch"; "-r"; "--format=%(refname:short)"], ok "");
      (ops_argv ["checkout"; "-b"; "main"], ok "Switched to a new branch 'main'");
      (ops_argv ["add"; "."], ok "");
      (ops_argv diff_args, ok "") ]
    (failed "fatal: unexpected command").

(** Detached HEAD, where the formatted listing of the local branches has a
    line for the detached HEAD itself. *)
Definition detached_line : Runtime :=
  runtime
    [ (ops_argv ["branch"; "--format=%(refname:short)"],
       ok ("(HEAD detached at 1a2b3c4)" ++ Py.nl ++ "main")%string) ]
    (failed "fatal: unexpected command").

(** On [main], nothing to commit. *)
Definition clean_tree : Runtime :=
  runtime
    [ (ops_argv ["branch"; "--show-current"], ok "main");
      (ops_argv ["add"; "."], ok "");
      (ops_argv diff_args, ok "") ]
    (failed "fatal: unexpected command").

(** Detached HEAD with [develop], [main] and [master]; the checkout of
    [main] goes through and the push of [main] is accepted. *)
Definition detached_main : Runtime :=
  runtime
    [ (["git"; "status"; "--porcelain"], ok "");
      (["git"; "branch"],
       ok ("* (HEAD detached at 1a2b3c4)" ++ Py.nl ++ "  develop" ++ Py.nl
           ++ "  main" ++ Py.nl ++ "  master")%string);
      (["git"; "branch"; "-r"], ok "");
      (checkout_cmd "main", ok "Switched to branch 'main'");
      (["git"; "branch"; "--show-current"], ok "main");
      (["git"; "push"; "origin"; "main"], ok "Everything up-to-date") ]
    (failed "fatal: unexpected command").

(** On [main]; a branch name that does not exist anywhere is asked for,
    and [git checkout -b] creates it. *)
Definition unknown_name : Runtime :=
  runtime
    [ (["git"; "branch"], ok "* main");
      (["git"; "branch"; "-r"], ok "  origin/main");
      (["git"; "checkout"; "-b"; "non_existent_branch_12345"],
       ok "Switched to a new branch 'non_existent_branch_12345'") ]
    (failed "fatal: unexpected command").

(** Two remotes carry [feature], so [git checkout feature] is ambiguous
    and fails; [origin/feature] is listed. *)
Definition ambiguous_remote : Runtime :=
  runtime
    [ (checkout_cmd "feature",
       failed "fatal: 'feature' matched multiple (2) remote tracking branches");
      (["git"; "branch"], ok "* main");
      (["git"; "branch"; "-r"],
       ok ("  origin/feature" ++ Py.nl ++ "  origin/main" ++ Py.nl
           ++ "  upstream/feature")%string);
      (show_ref_cmd "feature", ok "");
      (["git"; "checkout"; "-b"; "feature"; "origin/feature"],
       ok "Switched to a new branch 'feature'") ]
    (failed "fatal: unexpected command").

(** On [main], where the push is accepted. *)
Definition on_main : Runtime :=
  runtime
    [ (["git"; "status"; "--porcelain"], ok " M README.md");
      (["git"; "branch"], ok ("  develop" ++ Py.nl ++ "* main")%string);
      (["git"; "branch"; "-r"], ok "  origin/main");
      (symbolic_ref, ok "refs/remotes/origin/main");
      (["git"; "branch"; "--show-current"], ok "main");
      (["git"; "push"; "origin"; "main"], ok "Everything up-to-date") ]
    (failed "fatal: unexpected command").

(** On [dev], which has no upstream yet; the forced push is refused for
    that reason and the push that sets the upstream is accepted. *)
Definition no_upstream : Runtime :=
  runtime
    [ (["git"; "branch"; "--show-current"], ok "dev");
      (["git"; "push"; "--force"; "origin"; "dev"],
       failed "fatal: The current branch dev has no upstream branch.");
      (["git"; "push"; "--set-upstream"; "origin"; "dev"],
       ok "branch 'dev' set up to track 'origin/dev'.") ]
    (failed "fatal: unexpected command").

(** On [main]; of three files to stage, the second does not exist. *)
Definition missing_file : Runtime :=
  runtime
    [ (ops_argv ["branch"; "--show-current"], ok "main");
      (add_cmd "a.txt", ok "");
      (add_cmd "b.txt",
       Completed 128 "" "fatal: pathspec 'b.txt' did not match any files");
      (add_cmd "c.txt", ok "") ]
    (failed "fatal: unexpected command").

(** On [main] with a change staged; the commit is refused (no identity
    configured). *)
Definition commit_refused : Runtime :=
  runtime
    [ (ops_argv ["branch"; "--show-current"], ok "main");
      (add_cmd ".", ok "");
      (ops_argv diff_args, Completed 1 "" "");
      (ops_argv (commit_args "自動コミット 2025-08-16 12:00:00"),
       Completed 128 "" "fatal: unable to auto-detect email address");
      (ops_argv ["push"; "origin"; "main"], ok "") ]
    (failed "fatal: unexpected command").

(** Detached HEAD; [release] exists on the remote only, and fetching it
    into a local branch works. *)
Definition remote_only : Runtime :=
  runtime
    [ (ops_argv ops_local_listing, ok "main");
      (ops_argv ops_remote_listing,
       ok ("origin/main" ++ Py.nl ++ "origin/release")%string);
      (ops_argv (fetch_branch_args "release"), ok "");
      (ops_argv ["checkout"; "release"], ok "Switched to branch 'release'") ]
    (failed "fatal: unexpected command").

(** Detached HEAD with [main] as a local branch; no remote can be
    reached, and the checkout of [main] goes through. *)
Definition detached_offline : Runtime :=
  runtime
    [ (ops_argv ops_show_current, ok "");
      (ops_argv ops_local_listing, ok "main");
      (ops_argv ops_remote_listing, ok "");
      (ops_argv ["checkout"; "main"], ok "Switched to branch 'main'") ]
    (failed "fatal: unable to access the remote").

End Worlds.

(** ** Proof automation *)

(** Run a computation symbolically: push [value], [final] and [started]
    through [bind], [ret] and the command runners. *)
Ltac run_simp :=
  repeat (autorewrite with run in *; cbn [fst snd] in * ).

(** ** The string primitives on examples *)

Example strip_example : Py.strip ("  main " ++ Py.nl)%string = "main".
Proof. reflexivity. Qed.

Example split_lines_example :
  Py.split ("* main" ++ Py.nl ++ Py.nl ++ "  dev")%string Py.nl
  = ["* main"; ""; "  dev"].
Proof. reflexivity. Qed.

Example split_ref_example :
  Py.last_piece (Py.split "refs/remotes/origin/main" "refs/remotes/origin/")
  = "main".
Proof. reflexivity. Qed.

Example replace_example : Py.replace "origin/origin/x" "origin/" "" = "x".
Proof. reflexivity. Qed.

Example endswith_example :
  Py.endswith "origin/HEAD" "/HEAD" = true /\ Py.endswith "HEAD" "/HEAD" = false.
Proof. split; reflexivity. Qed.

Example missing_upstream_example :
  GitUtils.indicates_missing_upstream
    "fatal: The current branch dev has no upstream branch." = true.
Proof. reflexivity. Qed.

(** ** The computation monad *)

Section MonadFacts.
Context {R : Runtime}.

Lemma value_bind {A B} (m : M A) (k : A -> M B) (w : world) :
  value (bind m k w) = value (k (value (m w)) (final (m w))).
Proof.
  unfold bind, value, final.
  destruct (m w) as [[a w1] t1]; cbn.
  destruct (k a w1) as [[b w2] t2]; reflexivity.
Qed.

Lemma final_bind {A B} (m : M A) (k : A -> M B) (w : world) :
  final (bind m k w) = final (k (value (m w)) (final (m w))).
Proof.
  unfold bind, value, final.
  destruct (m w) as [[a w1] t1]; cbn.
  destruct (k a w1) as [[b w2] t2]; reflexivity.
Qed.

Lemma started_bind {A B} (m : M A) (k : A -> M B) (w : world) :
  started (bind m k w)
  = started (m w) ++ started (k (value (m w)) (final (m w))).
Proof.
  unfold bind, value, final, started.
  destruct (m w) as [[a w1] t1]; cbn.
  destruct (k a w1) as [[b w2] t2]; reflexivity.
Qed.

Lemma value_ret {A} (a : A) (w : world) : value (ret a w) = a.
Proof. reflexivity. Qed.

Lemma final_ret {A} (a : A) (w : world) : final (ret a w) = w.
Proof. reflexivity. Qed.

Lemma started_ret {A} (a : A) (w : world) : started (ret a w) = [].
Proof. reflexivity. Qed.

Lemma started_spawn argv cwd timeout (w : world) :
  started (spawn argv cwd timeout w)
  = [(argv, fst (subprocess_run argv cwd timeout w))].
Proof.
  unfold spawn, started.
  destruct (subprocess_run argv cwd timeout w); reflexivity.
Qed.

Lemma value_spawn argv cwd timeout (w : world) :
  value (spawn argv cwd timeout w) = fst (subprocess_run argv cwd timeout w).
Proof.
  unfold spawn, value.
  destruct (subprocess_run argv cwd timeout w); reflexivity.
Qed.

Lemma final_spawn argv cwd timeout (w : world) :
  final (spawn argv cwd timeout w) = snd (subprocess_run argv cwd timeout w).
Proof.
  unfold spawn, final.
  destruct (subprocess_run argv cwd timeout w); reflexivity.
Qed.

End MonadFacts.

Create Rewrite HintDb run.
#[export] Hint Rewrite @value_bind @final_bind @started_bind
  @value_ret @final_ret @started_ret : run.

(** ** The command runner *)

Section Runner.
Context {R : Runtime}.

Lemma utils_run_value command cwd (w : world) :
  value (GitUtils.run_git_command command cwd w)
  = (exit_zero (fst (subprocess_run command cwd None w)),
     utils_output (fst (subprocess_run command cwd None w))).
Proof.
  unfold GitUtils.run_git_command.
  rewrite value_bind, value_spawn.
  destruct (fst (subprocess_run command cwd None w)); reflexivity.
Qed.

Lemma utils_run_started command cwd (w : world) :
  started (GitUtils.run_git_command command cwd w)
  = [(command, fst (subprocess_run command cwd None w))].
Proof.
  unfold GitUtils.run_git_command.
  rewrite started_bind, started_spawn. unfold ret, started; cbn.
  reflexivity.
Qed.

Lemma utils_run_final command cwd (w : world) :
  final (GitUtils.run_git_command command cwd w)
  = snd (subprocess_run command cwd None w).
Proof.
  unfold GitUtils.run_git_command.
  rewrite final_bind, final_spawn. reflexivity.
Qed.

End Runner.

Section OpsRunner.
Context {R : Runtime}.
Variable self : GitOperations.t.

Lemma ops_run_started command capture (w : world) :
  started (GitOperations.run_git_command self command capture w)
  = [(ops_argv command, ops_outcome self command w)].
Proof.
  unfold GitOperations.run_git_command, ops_outcome, ops_argv.
  rewrite started_bind, started_spawn. unfold ret, started; cbn.
  reflexivity.
Qed.

Lemma ops_run_final command capture (w : world) :
  final (GitOperations.run_git_command self command capture w)
  = ops_after self command w.
Proof.
  unfold GitOperations.run_git_command, ops_after, ops_argv.
  rewrite final_bind, final_spawn. reflexivity.
Qed.

Lemma ops_run_value command (w : world) :
  value (GitOperations.run_git_command self command true w)
  = (exit_zero (ops_outcome self command w),
     ops_output (ops_outcome self command w)).
Proof.
  unfold GitOperations.run_git_command, ops_outcome, ops_argv.
  rewrite value_bind, value_spawn.
  destruct (fst (subprocess_run _ _ _ w)) as [rc out err | [text | rc' text | text]];
    cbn; try reflexivity.
  destruct (Z.eqb rc 0); reflexivity.
Qed.

Lemma ops_run_success command (w : world) :
  fst (value (GitOperations.run_git_command self command true w))
  = exit_zero (ops_outcome self command w).
Proof. rewrite ops_run_value. reflexivity. Qed.

Lemma ops_output_stdout (o : run_outcome) :
  exit_zero o = true -> ops_output o = Py.strip (stdout_of o).
Proof.
  destruct o as [rc out err | e]; cbn; [| discriminate].
  intros ->. reflexivity.
Qed.

End OpsRunner.

(** Called with [capture_output=False], the runner of the object never
    reports success: the completed process has no captured text to strip.
    No call in the repository passes that argument. *)
Lemma ops_run_uncaptured {R : Runtime} (self : GitOperations.t)
    (command : list string) (w : world) :
  fst (value (GitOperations.run_git_command self command false w)) = false.
Proof.
  unfold GitOperations.run_git_command.
  rewrite value_bind, value_spawn.
  destruct (fst (subprocess_run _ _ _ w)) as [rc out err | [text | rc' text | text]];
    reflexivity.
Qed.

Lemma exit_zero_iff (o : run_outcome) :
  exit_zero o = true <-> exists out err, o = Completed 0 out err.
Proof.
  split.
  - destruct o as [rc out err | e]; cbn; try discriminate.
    intros H. apply Z.eqb_eq in H. subst rc. eauto.
  - intros (out & err & ->). reflexivity.
Qed.

(** C8, as stated, fails: a process that exits with status 0 does not
    always make the runner report success.  With a branch whose name is
    not UTF-8, [git branch] exits with status 0, [text=True] cannot decode
    what it printed, [subprocess.run] raises, and either runner returns
    [False] with the text of the decoding error. *)
Lemma exit_zero_undecodable_output :
  let o1 := @utils_outcome Worlds.latin1_branch ["git"; "branch"] tt in
  let r1 := value (@GitUtils.run_git_command Worlds.latin1_branch
                     ["git"; "branch"] None tt) in
  let o2 := @ops_outcome Worlds.latin1_branch GitOperations.init
              ["branch"; "--format=%(refname:short)"] tt in
  let r2 := value (@GitOperations.run_git_command Worlds.latin1_branch
                     GitOperations.init
                     ["branch"; "--format=%(refname:short)"] true tt) in
  process_exit_status o1 = Some 0%Z
  /\ fst r1 = false
  /\ process_exit_status o2 = Some 0%Z
  /\ fst r2 = false
  /\ snd r2
     = "Git command failed: 'utf-8' codec can't decode byte 0xe9 in position 5: invalid continuation byte".
Proof. cbv zeta. repeat split. Qed.

(** C8, amended. Whenever [subprocess.run] returns or raises, the command
    runner of either module returns a pair and lets no exception through.
    The flag is true exactly when [subprocess.run] returned a completed
    process whose return code is 0; an exit status of 0 alone is not
    enough, since output that cannot be decoded raises.  Each runner starts
    one subprocess.  [git_utils.run_git_command] starts it without a
    timeout and answers an exception [e] with [(False, str(e))].
    [GitOperations.run_git_command] starts [git --no-pager ...] in the
    repository with a timeout of 30 seconds; it answers the expiry of that
    timeout with [(False, 'Git command timed out')] and any other
    exception [e] with [(False, 'Git command failed: ' + str(e))]. *)
Theorem run_git_command_reports_outcome {R : Runtime} (self : GitOperations.t)
    (command : list string) (cwd : option string) (w : world) :
  let o1 := fst (subprocess_run command cwd None w) in
  let utils_run := GitUtils.run_git_command command cwd w in
  let o2 :=
    fst (subprocess_run (["git"; "--no-pager"] ++ command)
           (Some (GitOperations.repo_path self)) (Some 30%Z) w) in
  let ops_run := GitOperations.run_git_command self command true w in
  (fst (value utils_run) = true <-> exists out err, o1 = Completed 0 out err)
  /\ (fst (value ops_run) = true <-> exists out err, o2 = Completed 0 out err)
  /\ started utils_run = [(command, o1)]
  /\ started ops_run = [(["git"; "--no-pager"] ++ command, o2)]
  /\ (forall e, o1 = Raises e -> value utils_run = (false, str_of_exception e))
  /\ (forall text,
        o2 = Raises (TimeoutExpired text) ->
        value ops_run = (false, "Git command timed out"))
  /\ (forall e,
        o2 = Raises e ->
        (forall text, e <> TimeoutExpired text) ->
        value ops_run
        = (false, ("Git command failed: " ++ str_of_exception e)%string))
  /\ (forall text,
        (o1 = Raises (DecodeError 0 text) -> fst (value utils_run) = false)
        /\ (o2 = Raises (DecodeError 0 text) -> fst (value ops_run) = false)).
Proof.
  cbv zeta.
  assert (Hops : value (GitOperations.run_git_command self command true w)
                 = (exit_zero (ops_outcome self command w),
                    ops_output (ops_outcome self command w)))
    by apply ops_run_value.
  unfold ops_outcome, ops_argv in Hops.
  split; [| split; [| split; [| split; [| split; [| split; [| split]]]]]].
  - rewrite utils_run_value. cbn [fst]. apply exit_zero_iff.
  - rewrite Hops. cbn [fst]. apply exit_zero_iff.
  - apply utils_run_started.
  - apply ops_run_started.
  - intros e He. rewrite utils_run_value, He. reflexivity.
  - intros text He. rewrite Hops, He. reflexivity.
  - intros e He Hnot. rewrite Hops, He.
    destruct e as [text | rc text | text]; [| reflexivity | reflexivity].
    exfalso. exact (Hnot text eq_refl).
  - intros text. split; intros He.
    + rewrite utils_run_value, He. reflexivity.
    + rewrite Hops, He. reflexivity.
Qed.

(** ** Detached HEAD *)

Section Detached.
Context {R : Runtime}.
Variable self : GitOperations.t.

Lemma ops_current_branch_value (w : world) :
  value (GitOperations.get_current_branch self w)
  = let o := ops_outcome self ["branch"; "--show-current"] w in
    if exit_zero o && Py.truthy (Py.strip (stdout_of o))
    then Some (Py.strip (stdout_of o)) else None.
Proof.
  unfold GitOperations.get_current_branch.
  rewrite value_bind, ops_run_value. cbv zeta.
  destruct (exit_zero (ops_outcome self _ w)) eqn:E; cbn [andb].
  - rewrite (ops_output_stdout _ E).
    destruct (Py.truthy _); reflexivity.
  - reflexivity.
Qed.

Lemma ops_is_detached_value (w : world) :
  value (GitOperations.is_detached_head self w)
  = match value (GitOperations.get_current_branch self w) with
    | None => true
    | Some _ => false
    end.
Proof.
  unfold GitOperations.is_detached_head.
  rewrite value_bind. reflexivity.
Qed.

Lemma utils_is_detached_value (w : world) :
  value (GitUtils.is_detached_head w)
  = let o := utils_outcome ["git"; "branch"] w in
    exit_zero o && existsb detached_marker (Py.split (utils_output o) Py.nl).
Proof.
  unfold GitUtils.is_detached_head.
  rewrite value_bind, utils_run_value. reflexivity.
Qed.

End Detached.

(** C10. When the query [git branch --show-current] does not exit with
    status 0 (an error status, the timeout, a failure to start),
    [get_current_branch] is [None] and [is_detached_head] is [True],
    whatever branch HEAD is on. *)
Theorem failed_query_reads_as_detached {R : Runtime} (self : GitOperations.t)
    (w : world) :
  (forall out err,
      ops_outcome self ["branch"; "--show-current"] w <> Completed 0 out err) ->
  value (GitOperations.get_current_branch self w) = None
  /\ value (GitOperations.is_detached_head self w) = true.
Proof.
  intros Hfail.
  assert (Hz : exit_zero (ops_outcome self ["branch"; "--show-current"] w) = false).
  { destruct (exit_zero _) eqn:E; [| reflexivity].
    apply exit_zero_iff in E. destruct E as (out & err & E).
    exfalso. exact (Hfail out err E). }
  assert (Hc : value (GitOperations.get_current_branch self w) = None).
  { rewrite ops_current_branch_value. cbv zeta. rewrite Hz. reflexivity. }
  split; [exact Hc |].
  rewrite ops_is_detached_value, Hc. reflexivity.
Qed.

(** A repository on [main] whose [git] hangs: the query times out and the
    object reports a detached HEAD. *)
Lemma failed_query_reads_as_detached_witness :
  let w := {| ToyGit.head := Some "main"; ToyGit.locals := ["main"] |} in
  ToyGit.head w = Some "main"
  /\ value (@GitOperations.get_current_branch ToyGit.runtime_hung
              GitOperations.init w) = None
  /\ value (@GitOperations.is_detached_head ToyGit.runtime_hung
              GitOperations.init w) = true.
Proof.
  cbv zeta. split; [reflexivity |].
  apply (@failed_query_reads_as_detached ToyGit.runtime_hung GitOperations.init).
  intros out err. vm_compute. discriminate.
Defined.

(** C6, as stated, fails: without a [git] executable both queries fail to
    start; the object reports a detached HEAD and the free function
    reports none. *)
Lemma detached_variants_disagree :
  value (@GitOperations.is_detached_head Worlds.no_git GitOperations.init tt)
  = true
  /\ value (@GitUtils.is_detached_head Worlds.no_git tt) = false.
Proof. split; reflexivity. Qed.

(** C6, amended. In [git_operations.py], [is_detached_head()] is true
    exactly when [get_current_branch()] is [None], that is when
    [git branch --show-current] did not exit with status 0 or printed only
    white space.  In [git_utils.py], [is_detached_head()] is true exactly
    when [git branch] exited with status 0 and a line of its output,
    stripped, starts with the detached-HEAD marker.  When the query fails
    the first answers [True] and the second [False]. *)
Theorem detached_head_variants {R : Runtime} (self : GitOperations.t)
    (w : world) :
  let o_ops := ops_outcome self ["branch"; "--show-current"] w in
  let o_utils := utils_outcome ["git"; "branch"] w in
  let ops_detached := value (GitOperations.is_detached_head self w) in
  let utils_detached := value (GitUtils.is_detached_head w) in
  (ops_detached = true <-> value (GitOperations.get_current_branch self w) = None)
  /\ ops_detached
     = negb (exit_zero o_ops && Py.truthy (Py.strip (stdout_of o_ops)))
  /\ utils_detached
     = exit_zero o_utils
       && existsb detached_marker (Py.split (utils_output o_utils) Py.nl)
  /\ (exit_zero o_ops = false -> ops_detached = true)
  /\ (exit_zero o_utils = false -> utils_detached = false).
Proof.
  cbv zeta.
  rewrite ops_is_detached_value, ops_current_branch_value, utils_is_detached_value.
  cbv zeta.
  generalize (Py.strip (stdout_of (ops_outcome self ["branch"; "--show-current"] w))).
  generalize (existsb detached_marker
                (Py.split (utils_output (utils_outcome ["git"; "branch"] w)) Py.nl)).
  intros marker output.
  destruct (exit_zero (ops_outcome self _ w)),
    (exit_zero (utils_outcome _ w)), (Py.truthy output); cbn [andb negb];
    repeat split; intros; try reflexivity; try discriminate.
Qed.

(** ** Pushing *)

Section Push.
Context {R : Runtime}.
Variable self : GitOperations.t.

(** In [git_operations.py] a failed push is always followed by one push
    with [-u], whatever the failure was; there is no third push. *)
Lemma ops_push_branch_trace (b : string) (w : world) :
  let first := ops_outcome self ["push"; "origin"; b] w in
  let w1 := ops_after self ["push"; "origin"; b] w in
  let second := ops_outcome self ["push"; "-u"; "origin"; b] w1 in
  started (GitOperations.push_branch self b w)
  = (if exit_zero first
     then [(ops_argv ["push"; "origin"; b], first)]
     else [(ops_argv ["push"; "origin"; b], first);
           (ops_argv ["push"; "-u"; "origin"; b], second)])
  /\ value (GitOperations.push_branch self b w)
     = (exit_zero first || exit_zero second).
Proof.
  cbv zeta. unfold GitOperations.push_branch.
  rewrite started_bind, value_bind, ops_run_started, ops_run_value, ops_run_final.
  cbn [fst snd].
  destruct (exit_zero (ops_outcome self _ w)); cbn [negb orb].
  - split; reflexivity.
  - rewrite started_bind, value_bind, ops_run_started, ops_run_value.
    split; reflexivity.
Qed.

End Push.

Section UtilsPush.
Context {R : Runtime}.

(** In [git_utils.py], once the branch [b] to push is known: a successful
    push ends the operation; a failed one is retried, once and with
    [--set-upstream], exactly when its text speaks of a missing upstream;
    the result is that of the last push. *)
Lemma utils_push_trace (force : bool) (w : world) :
  let q := GitUtils.run_git_command ["git"; "branch"; "--show-current"] None w in
  let b := snd (value q) in
  let push_cmd :=
    ["git"; "push"] ++ (if force then ["--force"] else []) ++ ["origin"; b] in
  let first := utils_outcome push_cmd (final q) in
  let w1 := final (GitUtils.run_git_command push_cmd None (final q)) in
  let retry_cmd := ["git"; "push"; "--set-upstream"; "origin"; b] in
  let second := utils_outcome retry_cmd w1 in
  fst (value q) = true -> Py.truthy b = true ->
  started (GitUtils.push_current force w)
  = started q
    ++ (push_cmd, first)
       :: (if negb (exit_zero first)
              && GitUtils.indicates_missing_upstream (utils_output first)
           then [(retry_cmd, second)] else [])
  /\ value (GitUtils.push_current force w)
     = (exit_zero first
        || (GitUtils.indicates_missing_upstream (utils_output first)
            && exit_zero second)).
Proof.
  cbv zeta. intros Hq Hb. unfold GitUtils.push_current.
  rewrite started_bind, value_bind.
  destruct (value (GitUtils.run_git_command
                     ["git"; "branch"; "--show-current"] None w))
    as [success b]; cbn [fst snd] in *.
  subst success. rewrite Hb. cbn [negb orb].
  rewrite started_bind, value_bind, utils_run_value.
  unfold utils_outcome.
  set (q := GitUtils.run_git_command _ None w).
  rewrite (utils_run_started _ None (final q)).
  set (push_cmd := ["git"; "push"] ++ _ ++ _).
  destruct (exit_zero (fst (subprocess_run push_cmd None None (final q))));
    cbn [negb andb orb fst snd].
  - autorewrite with run. split; reflexivity.
  - destruct (GitUtils.indicates_missing_upstream _); cbn [andb].
    + autorewrite with run.
      rewrite utils_run_started, utils_run_value.
      split; reflexivity.
    + autorewrite with run. split; reflexivity.
Qed.

End UtilsPush.

(** C3, at the failing input. The repository is on [main] with a change
    to commit; the first push fails on a network error, whose text says
    nothing of a missing upstream.  [GitOperations.execute_git_push] pushes
    again with [-u] all the same, and returns [True] because that second
    push went through. *)
Theorem ops_push_retries_any_failure :
  let r := @GitOperations.execute_git_push Worlds.flaky_network
             GitOperations.init (Some "fix") None tt in
  GitUtils.indicates_missing_upstream Worlds.unreachable = false
  /\ value r = true
  /\ commands (started r)
     = [ ops_argv ["branch"; "--show-current"];
         ops_argv ["add"; "."];
         ops_argv ["diff"; "--cached"; "--quiet"];
         ops_argv ["commit"; "-m"; "fix"];
         ops_argv ["push"; "origin"; "main"];
         ops_argv ["push"; "-u"; "origin"; "main"] ].
Proof. cbv zeta. repeat split; vm_compute; reflexivity. Qed.

#[export] Hint Rewrite @utils_run_value @utils_run_started @utils_run_final
  @ops_run_value @ops_run_started @ops_run_final : run.

(** ** Listing the branches, [git_utils.py] *)

Lemma mem_In (x : string) (xs : list string) : Py.mem x xs = true <-> In x xs.
Proof.
  unfold Py.mem. rewrite existsb_exists. split.
  - intros (y & Hy & E). apply String.eqb_eq in E. subst. exact Hy.
  - intros H. exists x. split; [exact H | apply String.eqb_refl].
Qed.

Lemma mem_false (x : string) (xs : list string) :
  Py.mem x xs = false <-> ~ In x xs.
Proof.
  rewrite <- mem_In. destruct (Py.mem x xs); split; intros; congruence.
Qed.

Section UtilsListing.
Context {R : Runtime}.

Lemma utils_available_value (w : world) :
  value (GitUtils.get_available_branches w) = list_of_set (utils_collected w).
Proof.
  unfold GitUtils.get_available_branches. run_simp. reflexivity.
Qed.

Lemma utils_available_started (w : world) :
  started (GitUtils.get_available_branches w)
  = [ (["git"; "branch"], utils_outcome ["git"; "branch"] w);
      (["git"; "branch"; "-r"],
       utils_outcome ["git"; "branch"; "-r"] (utils_after ["git"; "branch"] w)) ].
Proof.
  unfold GitUtils.get_available_branches. run_simp. reflexivity.
Qed.

Lemma utils_available_final (w : world) :
  final (GitUtils.get_available_branches w)
  = utils_after ["git"; "branch"; "-r"] (utils_after ["git"; "branch"] w).
Proof.
  unfold GitUtils.get_available_branches. run_simp. reflexivity.
Qed.

End UtilsListing.

(** ** Choosing the default branch *)

Lemma find_first_present (priority available : list string) (c : string) :
  first_present priority available c ->
  find (fun candidate => Py.mem candidate available) priority = Some c.
Proof.
  intros (before & after & -> & Hc & Hbefore).
  induction before as [| b before IH]; cbn.
  - apply mem_In in Hc. rewrite Hc. reflexivity.
  - assert (Hb : Py.mem b available = false).
    { apply mem_false. apply Hbefore. left. reflexivity. }
    rewrite Hb. apply IH. intros c' Hc'. apply Hbefore. right. exact Hc'.
Qed.

Lemma find_none_present (priority available : list string) :
  (forall c, In c priority -> ~ In c available) ->
  find (fun candidate => Py.mem candidate available) priority = None.
Proof.
  intros H. induction priority as [| p priority IH]; cbn; [reflexivity |].
  assert (Hp : Py.mem p available = false).
  { apply mem_false. apply H. left. reflexivity. }
  rewrite Hp. apply IH. intros c Hc. apply H. right. exact Hc.
Qed.

Lemma pick_first_present (priority available : list string) (c : string) :
  first_present priority available c -> pick priority available = Some c.
Proof.
  intros H. unfold pick. rewrite (find_first_present _ _ _ H). reflexivity.
Qed.

Lemma pick_none_present (priority available : list string) :
  (forall c, In c priority -> ~ In c available) ->
  pick priority available = hd_error available.
Proof.
  intros H. unfold pick. rewrite (find_none_present _ _ H). reflexivity.
Qed.

Lemma first_present_head (c : string) (priority available : list string) :
  In c available -> first_present (c :: priority) available c.
Proof.
  intros H. exists [], priority. repeat split; [exact H |].
  intros c' [].
Qed.

Lemma first_present_through_set {R : Runtime} (priority names : list string)
    (c : string) :
  set_semantics R ->
  first_present priority names c ->
  first_present priority (list_of_set names) c.
Proof.
  intros Hset (before & after & -> & Hc & Hbefore).
  exists before, after. repeat split.
  - apply (Hset names). exact Hc.
  - intros c' Hc' Hin. apply (Hbefore c' Hc'). apply (Hset names). exact Hin.
Qed.

Section UtilsDefault.
Context {R : Runtime}.

Lemma utils_default_value (w : world) :
  value (GitUtils.get_default_branch w)
  = match remote_default (utils_outcome symbolic_ref w) with
    | Some b => Some b
    | None =>
        pick GitUtils.default_candidates
          (value (GitUtils.get_available_branches (utils_after symbolic_ref w)))
    end.
Proof.
  unfold GitUtils.get_default_branch, remote_default, pick, utils_outcome,
    utils_after, symbolic_ref.
  run_simp.
  destruct (exit_zero _ && Py.contains _ _); run_simp; [reflexivity |].
  destruct (find _ _); run_simp; reflexivity.
Qed.

Lemma utils_default_started (w : world) :
  started (GitUtils.get_default_branch w)
  = (symbolic_ref, utils_outcome symbolic_ref w)
    :: match remote_default (utils_outcome symbolic_ref w) with
       | Some _ => []
       | None =>
           started (GitUtils.get_available_branches (utils_after symbolic_ref w))
       end.
Proof.
  unfold GitUtils.get_default_branch, remote_default, pick, utils_outcome,
    utils_after, symbolic_ref.
  run_simp.
  destruct (exit_zero _ && Py.contains _ _); run_simp; [reflexivity |].
  destruct (find _ _); run_simp; rewrite app_nil_r; reflexivity.
Qed.

End UtilsDefault.

Section OpsDefault.
Context {R : Runtime}.
Variable self : GitOperations.t.

Lemma ops_best_value (w : world) :
  value (GitOperations.find_best_branch self w)
  = let w1 := final (GitOperations.fetch_remote_branches self w) in
    pick GitOperations.priority_branches
      (list_of_set (ops_local_names self w1 ++ ops_remote_names self w1)).
Proof.
  unfold GitOperations.find_best_branch, pick, ops_local_names, ops_remote_names.
  run_simp. cbv zeta.
  destruct (value (GitOperations.get_available_branches self _)) as [l r].
  cbn [fst snd].
  destruct (find _ _); run_simp; reflexivity.
Qed.

End OpsDefault.

(** C1, as stated, fails for the object.  With [origin/HEAD] pointing at
    [trunk] and [main] listed, [get_default_branch()] answers [trunk] and
    [find_best_branch()] answers [main]: it never asks for [origin/HEAD].
    With only [alpha] and [development] listed, and a set that enumerates
    [alpha] first, [get_default_branch()] answers [development] and
    [find_best_branch()] answers [alpha]: its priority list stops at
    [develop]. *)
Lemma best_branch_ignores_remote_head :
  (remote_default (@utils_outcome Worlds.remote_head_trunk symbolic_ref tt)
   = Some "trunk"
   /\ value (@GitUtils.get_default_branch Worlds.remote_head_trunk tt)
      = Some "trunk"
   /\ value (@GitOperations.find_best_branch Worlds.remote_head_trunk
               GitOperations.init tt) = Some "main")
  /\ (value (@GitUtils.get_default_branch Worlds.alpha_development tt)
      = Some "development"
      /\ value (@GitOperations.find_best_branch Worlds.alpha_development
                  GitOperations.init tt) = Some "alpha").
Proof. repeat split; reflexivity. Qed.

(** C1, amended. [get_default_branch()] answers in this order: the target
    of [origin/HEAD] when [git symbolic-ref] resolves it; else the first of
    [main], [master], [develop], [development] among the names of the local
    and remote listings; else the first entry of the combined set; else
    [None].  [find_best_branch()] of the object does not ask for
    [origin/HEAD]: it answers the first of [main], [master], [develop] among
    the names of its two lists; else the first entry of the combined set;
    else [None].  So a listed [main] is the answer of [find_best_branch()]
    always, and of [get_default_branch()] when [origin/HEAD] is unresolved,
    whatever else is listed. *)
Theorem default_branch_order {R : Runtime} (self : GitOperations.t)
    (w : world) :
  set_semantics R ->
  let o := utils_outcome symbolic_ref w in
  let names := utils_collected (utils_after symbolic_ref w) in
  let result := value (GitUtils.get_default_branch w) in
  let w1 := final (GitOperations.fetch_remote_branches self w) in
  let ops_names := ops_local_names self w1 ++ ops_remote_names self w1 in
  let best := value (GitOperations.find_best_branch self w) in
  (forall b, remote_default o = Some b -> result = Some b)
  /\ (remote_default o = None ->
      (forall c, first_present GitUtils.default_candidates names c ->
                 result = Some c)
      /\ ((forall c, In c GitUtils.default_candidates -> ~ In c names) ->
          result = hd_error (list_of_set names)
          /\ (names = [] <-> result = None)
          /\ (forall b, result = Some b -> In b names))
      /\ (In "main" names -> result = Some "main"))
  /\ (forall c, first_present GitOperations.priority_branches ops_names c ->
                best = Some c)
  /\ ((forall c, In c GitOperations.priority_branches -> ~ In c ops_names) ->
      best = hd_error (list_of_set ops_names)
      /\ (ops_names = [] <-> best = None)
      /\ (forall b, best = Some b -> In b ops_names))
  /\ (In "main" ops_names -> best = Some "main").
Proof.
  intros Hset. cbv zeta.
  assert (Hfirst : forall priority names,
             (forall c, In c priority -> ~ In c names) ->
             pick priority (list_of_set names) = hd_error (list_of_set names)
             /\ (names = [] <-> pick priority (list_of_set names) = None)
             /\ (forall b, pick priority (list_of_set names) = Some b ->
                           In b names)).
  { intros priority names Hnone.
    assert (E : pick priority (list_of_set names) = hd_error (list_of_set names)).
    { apply pick_none_present. intros c Hc Hin.
      apply (Hnone c Hc). apply (Hset _). exact Hin. }
    rewrite E. split; [reflexivity |].
    destruct (Hset names) as [_ Hin].
    destruct (list_of_set names) as [| x xs] eqn:Els; cbn.
    - split.
      + split; [reflexivity |]. intros _.
        destruct names as [| y ys]; [reflexivity |].
        exfalso. apply (proj2 (Hin y)). left. reflexivity.
      + intros b Hb. discriminate.
    - split.
      + split; [| discriminate].
        intros En. exfalso. rewrite En in Hin.
        apply (proj1 (Hin x)). left. reflexivity.
      + intros b Hb. injection Hb as <-. apply Hin. left. reflexivity. }
  rewrite utils_default_value, utils_available_value, ops_best_value. cbv zeta.
  split; [| split; [| split; [| split]]].
  - intros b ->. reflexivity.
  - intros ->. split; [| split].
    + intros c Hc. apply pick_first_present.
      apply first_present_through_set; assumption.
    + apply Hfirst.
    + intros Hmain. apply pick_first_present.
      apply first_present_through_set; [assumption |].
      apply first_present_head. exact Hmain.
  - intros c Hc. apply pick_first_present.
    apply first_present_through_set; assumption.
  - apply Hfirst.
  - intros Hmain. apply pick_first_present.
    apply first_present_through_set; [assumption |].
    apply first_present_head. exact Hmain.
Qed.

Lemma scripted_set_semantics table default :
  set_semantics (Scripted.runtime table default).
Proof.
  intros xs. split.
  - apply NoDup_nodup.
  - intros x. apply nodup_In.
Qed.

(** Detached HEAD with [develop], [main] and [master] listed and
    [origin/HEAD] unset: the default branch is [main]. *)
Lemma default_branch_order_witness :
  value (@GitUtils.get_default_branch
           (Worlds.detached_three Scripted.runtime) tt) = Some "main".
Proof.
  destruct (@default_branch_order (Worlds.detached_three Scripted.runtime)
              GitOperations.init tt (scripted_set_semantics _ _))
    as (_ & H & _).
  apply H; [reflexivity |].
  vm_compute. right. left. reflexivity.
Defined.

(** ** String facts *)

Lemma prefix_drop (p s : string) :
  String.prefix p s = true ->
  s = (p ++ Py.drop (String.length p) s)%string.
Proof.
  revert s. induction p as [| c p IH]; intros s H; cbn.
  - destruct s; reflexivity.
  - destruct s as [| d s]; cbn in H; [discriminate |].
    destruct (Ascii.ascii_dec c d) as [-> | Hne]; [| discriminate].
    cbn. f_equal. apply IH. exact H.
Qed.

Lemma rstrip_head (c : ascii) (s : string) :
  Py.is_space c = false -> exists r, Py.rstrip (String c s) = String c r.
Proof.
  intros Hc. cbn. destruct (Py.rstrip s) as [| d r].
  - rewrite Hc. exists EmptyString. reflexivity.
  - exists (String d r). reflexivity.
Qed.

Lemma strip_head (c : ascii) (s : string) :
  Py.is_space c = false -> exists r, Py.strip (String c s) = String c r.
Proof.
  intros Hc. unfold Py.strip. cbn [Py.lstrip]. rewrite Hc.
  apply rstrip_head. exact Hc.
Qed.

(** A name taken from the remote listing is what follows [origin/] on its
    line, and does not start with [HEAD]. *)
Lemma origin_name_shape (line x : string) :
  origin_name line = Some x ->
  Py.strip line = ("origin/" ++ x)%string /\ Py.startswith x "HEAD" = false.
Proof.
  unfold origin_name. cbv zeta.
  remember (Py.strip line) as L eqn:EL. clear EL.
  destruct (Py.truthy L); cbn [andb]; [| discriminate].
  destruct (Py.startswith L "origin/HEAD") eqn:Ehead; cbn [negb]; [discriminate |].
  destruct (Py.startswith L "origin/") eqn:Eorigin; [| discriminate].
  intros Hx. injection Hx as Hx.
  pose proof (prefix_drop _ _ Eorigin) as E. cbn [String.length] in E.
  change (Py.drop 7 L = x) in Hx. rewrite Hx in E. clear Hx.
  split; [exact E |].
  subst L. unfold Py.startswith in *. cbn in Ehead. exact Ehead.
Qed.

(** The line that marks a detached HEAD contributes no name. *)
Lemma detached_marker_no_name (line : string) :
  detached_marker line = true -> local_name line = None.
Proof.
  unfold detached_marker, local_name. cbv zeta.
  remember (Py.strip line) as L eqn:EL. clear EL. intros H.
  pose proof (prefix_drop _ _ H) as E. cbn [String.length] in E.
  remember (Py.drop 16 L) as rest eqn:Er. clear Er. subst L.
  clear H. unfold Py.startswith. cbn -[Py.strip].
  match goal with
  | |- context [Py.strip (String ?c ?s)] =>
      destruct (strip_head c s eq_refl) as [r Hr]; rewrite Hr
  end.
  cbn. destruct r; reflexivity.
Qed.

(** ** The names of the listings *)

Lemma local_step_name (branches : list string) (line : string) :
  GitUtils.local_step branches line
  = match local_name line with
    | Some n => branches ++ [n]
    | None => branches
    end.
Proof.
  unfold GitUtils.local_step, local_name. cbv zeta.
  destruct (Py.truthy _ && negb _); [reflexivity |].
  destruct (Py.startswith (Py.strip line) "* "); [| reflexivity].
  destruct (negb _); reflexivity.
Qed.

Lemma remote_step_name (branches : list string) (line : string) :
  GitUtils.remote_step branches line
  = match origin_name line with
    | Some n => if Py.mem n branches then branches else branches ++ [n]
    | None => branches
    end.
Proof.
  unfold GitUtils.remote_step, origin_name. cbv zeta.
  destruct (Py.truthy _ && negb _); [| reflexivity].
  destruct (Py.startswith (Py.strip line) "origin/"); [| reflexivity].
  destruct (Py.mem _ branches); reflexivity.
Qed.

Lemma fold_local_In (lines acc : list string) (x : string) :
  In x (fold_left GitUtils.local_step lines acc)
  <-> In x acc \/ exists line, In line lines /\ local_name line = Some x.
Proof.
  revert acc. induction lines as [| l lines IH]; intros acc; cbn [fold_left].
  - split; [auto | intros [H | (line & [] & _)]; exact H].
  - rewrite IH, local_step_name. split.
    + intros [H | (line & Hl & Hn)].
      * destruct (local_name l) as [n |] eqn:En.
        -- apply in_app_or in H. destruct H as [H | [<- | []]].
           ++ left. exact H.
           ++ right. exists l. split; [left; reflexivity | exact En].
        -- left. exact H.
      * right. exists line. split; [right; exact Hl | exact Hn].
    + intros [H | (line & [<- | Hl] & Hn)].
      * left. destruct (local_name l); [apply in_or_app; left |]; exact H.
      * left. rewrite Hn. apply in_or_app. right. left. reflexivity.
      * right. exists line. split; assumption.
Qed.

Lemma fold_remote_In (lines acc : list string) (x : string) :
  In x (fold_left GitUtils.remote_step lines acc)
  <-> In x acc \/ exists line, In line lines /\ origin_name line = Some x.
Proof.
  revert acc. induction lines as [| l lines IH]; intros acc; cbn [fold_left].
  - split; [auto | intros [H | (line & [] & _)]; exact H].
  - rewrite IH, remote_step_name. split.
    + intros [H | (line & Hl & Hn)].
      * destruct (origin_name l) as [n |] eqn:En.
        -- destruct (Py.mem n acc); [left; exact H |].
           apply in_app_or in H. destruct H as [H | [<- | []]].
           ++ left. exact H.
           ++ right. exists l. split; [left; reflexivity | exact En].
        -- left. exact H.
      * right. exists line. split; [right; exact Hl | exact Hn].
    + intros [H | (line & [<- | Hl] & Hn)].
      * left. destruct (origin_name l) as [n |]; [| exact H].
        destruct (Py.mem n acc); [exact H | apply in_or_app; left; exact H].
      * left. rewrite Hn. destruct (Py.mem x acc) eqn:Em.
        -- apply mem_In. exact Em.
        -- apply in_or_app. right. left. reflexivity.
      * right. exists line. split; assumption.
Qed.

Section Names.
Context {R : Runtime}.

Lemma utils_collected_In (w : world) (x : string) :
  In x (utils_collected w)
  <-> (exists line, In line (utils_local_lines w) /\ local_name line = Some x)
      \/ (exists line, In line (utils_remote_lines w) /\ origin_name line = Some x).
Proof.
  unfold utils_collected, utils_local_names, utils_remote_lines, utils_local_lines,
    GitUtils.parse_remote, GitUtils.parse_local.
  cbv zeta.
  assert (Hl : forall (ok : bool) (out : string),
             In x (if ok then fold_left GitUtils.local_step (Py.split out Py.nl) []
                   else [])
             <-> exists line,
                 In line (if ok then Py.split out Py.nl else [])
                 /\ local_name line = Some x).
  { intros [|] out.
    - rewrite fold_local_In. split.
      + intros [[] | H]; exact H.
      + intros H. right. exact H.
    - split; [intros [] | intros (line & [] & _)]. }
  destruct (exit_zero (utils_outcome ["git"; "branch"; "-r"] _)).
  - rewrite fold_remote_In, Hl. reflexivity.
  - rewrite Hl. split.
    + intros H. left. exact H.
    + intros [H | (line & [] & _)]. exact H.
Qed.

Variable self : GitOperations.t.

Lemma ops_available_value (w : world) :
  value (GitOperations.get_available_branches self w)
  = (map Py.strip
       (filter (fun branch => Py.truthy (Py.strip branch))
          (ops_local_lines self w)),
     map (fun branch => Py.replace (Py.strip branch) "origin/" "")
       (filter
          (fun branch =>
             Py.truthy (Py.strip branch)
             && negb (Py.endswith (Py.strip branch) "/HEAD"))
          (ops_remote_lines self w))).
Proof.
  unfold GitOperations.get_available_branches, ops_local_lines, ops_remote_lines,
    GitOperations.parse_local, GitOperations.parse_remote.
  run_simp. cbv zeta.
  destruct (exit_zero (ops_outcome self ["branch"; "--format=%(refname:short)"] w));
    destruct (exit_zero (ops_outcome self ["branch"; "-r"; _] _));
    reflexivity.
Qed.

End Names.

Lemma scripted_rev_set_semantics table default :
  set_semantics (Scripted.runtime_rev table default).
Proof.
  intros xs. cbn [list_of_set Scripted.runtime_rev]. split.
  - apply NoDup_rev, NoDup_nodup.
  - intros x. rewrite <- in_rev. apply nodup_In.
Qed.

Lemma replace_clean (old new x : string) :
  Py.contains old x = false -> Py.replace x old new = x.
Proof.
  unfold Py.replace. induction x as [| c x IH]; intros H; [reflexivity |].
  cbn [Py.contains] in H. apply orb_false_elim in H. destruct H as [Hp Hc].
  cbn [Py.replace_from]. rewrite Hp. f_equal. apply IH. exact Hc.
Qed.

Lemma replace_origin_prefix (x : string) :
  Py.replace ("origin/" ++ x) "origin/" "" = Py.replace x "origin/" "".
Proof. destruct x; reflexivity. Qed.

Lemma replace_shortens (line : string) :
  shortens line (Py.replace (Py.strip line) "origin/" "").
Proof.
  intros x Hx. split; intros ->.
  - rewrite replace_origin_prefix. apply replace_clean. exact Hx.
  - apply replace_clean. exact Hx.
Qed.

Lemma Forall2_map_right {A B : Type} (P : A -> B -> Prop) (f : A -> B)
    (xs : list A) :
  (forall x, P x (f x)) -> Forall2 P xs (map f xs).
Proof.
  intros H. induction xs as [| x xs IH]; cbn; constructor; auto.
Qed.

(** A slip of the object: [.replace('origin/', '')] deletes every
    [origin/] of an entry, where [git_utils.py] cuts the prefix off with
    [line[7:]].  With a branch [origin/main] on the remote next to [main],
    the list of remote branches holds [main] twice. *)
Lemma remote_list_repeats :
  ops_remote_names (R := Worlds.stray_remote_branch) GitOperations.init tt
  = ["main"; "main"]
  /\ ~ NoDup (ops_remote_names (R := Worlds.stray_remote_branch)
                GitOperations.init tt).
Proof.
  assert (E : ops_remote_names (R := Worlds.stray_remote_branch)
                GitOperations.init tt = ["main"; "main"]) by reflexivity.
  split; [exact E |].
  rewrite E. intros H. inversion H as [| x xs Hnot _]. subst.
  apply Hnot. left. reflexivity.
Qed.

(** The object keeps every non-blank line of the local listing, a line for
    the detached HEAD included. *)
Lemma ops_local_keeps_detached_line :
  ops_local_names (R := Worlds.detached_line) GitOperations.init tt
  = ["(HEAD detached at 1a2b3c4)"; "main"].
Proof. reflexivity. Qed.

(** C5, as stated, fails: [git_utils.get_available_branches()] ends with
    [list(set(branches))], so its result comes in the order in which the
    Python set enumerates, not in the order in which the names were first
    seen; a set of strings enumerates by their hashes, which differ from
    one run of the interpreter to the next.  The listings name [develop],
    [main], [master] and [feature-x] in this order; where the set
    enumerates them backwards, so does the result. *)
Lemma available_branches_lose_listing_order :
  set_semantics (Worlds.detached_three Scripted.runtime_rev)
  /\ @utils_collected (Worlds.detached_three Scripted.runtime_rev) tt
     = ["develop"; "main"; "master"; "feature-x"]
  /\ value (@GitUtils.get_available_branches
              (Worlds.detached_three Scripted.runtime_rev) tt)
     = ["feature-x"; "master"; "main"; "develop"].
Proof.
  split; [apply scripted_rev_set_semantics |].
  split; reflexivity.
Qed.

(** C5, amended. [git_utils.get_available_branches()] returns one list
    without duplicates, in the order of a Python set; its names are those
    of the lines of [git branch] (the detached-HEAD line gives none) and
    what follows [origin/] on the lines of [git branch -r] (a line that
    starts with [origin/HEAD] gives none, so no such name starts with
    [HEAD]).  [git_operations.get_available_branches()] returns two lists
    in the order of the listings, one name for each line it keeps, and
    removes no duplicates: every non-blank line of the local listing, and
    every non-blank entry of the remote listing that does not end in
    [/HEAD], an entry [origin/<x>] as [<x>] where [<x>] holds no further
    [origin/]. *)
Theorem available_branches_shape {R : Runtime} (self : GitOperations.t)
    (w : world) :
  set_semantics R ->
  let available := value (GitUtils.get_available_branches w) in
  NoDup available
  /\ (forall x,
        In x available
        <-> (exists line, In line (utils_local_lines w)
                          /\ local_name line = Some x)
            \/ (exists line, In line (utils_remote_lines w)
                             /\ origin_name line = Some x))
  /\ (forall line, detached_marker line = true -> local_name line = None)
  /\ (forall line x,
        origin_name line = Some x ->
        Py.strip line = ("origin/" ++ x)%string
        /\ Py.startswith x "HEAD" = false)
  /\ ops_local_names self w
     = map Py.strip
         (filter (fun branch => Py.truthy (Py.strip branch))
            (ops_local_lines self w))
  /\ Forall2 shortens (filter ops_kept (ops_remote_lines self w))
       (ops_remote_names self w).
Proof.
  intros Hset. cbv zeta. rewrite utils_available_value.
  destruct (Hset (utils_collected w)) as [Hnodup Hin].
  split; [| split; [| split; [| split; [| split]]]].
  - exact Hnodup.
  - intros x. split.
    + intros H. apply utils_collected_In. apply Hin. exact H.
    + intros H. apply Hin. apply utils_collected_In. exact H.
  - exact detached_marker_no_name.
  - exact origin_name_shape.
  - unfold ops_local_names. rewrite ops_available_value. reflexivity.
  - unfold ops_remote_names. rewrite ops_available_value. cbn [snd].
    apply Forall2_map_right. exact replace_shortens.
Qed.

(** Detached HEAD, three local branches and two remote ones: four names,
    none twice, none for [origin/HEAD] or the detached-HEAD line. *)
Lemma available_branches_shape_witness :
  let available :=
    value (@GitUtils.get_available_branches
             (Worlds.detached_three Scripted.runtime) tt) in
  available = ["develop"; "main"; "master"; "feature-x"] /\ NoDup available.
Proof.
  cbv zeta. split; [reflexivity |].
  pose proof (@available_branches_shape
                (Worlds.detached_three Scripted.runtime) GitOperations.init tt
                (scripted_set_semantics _ _)) as H.
  cbv zeta in H. destruct H as (H & _). exact H.
Defined.

(** ** The resolver of [git_utils.py] *)

Section Resolver.
Context {R : Runtime}.

Lemma utils_create_value (branch : string) (w : world) :
  value (GitUtils.create_branch_from_remote branch w)
  = exit_zero
      (utils_outcome
         (create_cmd (exit_zero (utils_outcome (show_ref_cmd branch) w)) branch)
         (utils_after (show_ref_cmd branch) w)).
Proof.
  unfold GitUtils.create_branch_from_remote, show_ref_cmd, create_cmd,
    utils_outcome, utils_after.
  run_simp.
  destruct (exit_zero (fst (subprocess_run _ None None w))); run_simp; reflexivity.
Qed.

Lemma utils_create_started (branch : string) (w : world) :
  started (GitUtils.create_branch_from_remote branch w)
  = let found := utils_outcome (show_ref_cmd branch) w in
    let cmd := create_cmd (exit_zero found) branch in
    [ (show_ref_cmd branch, found);
      (cmd, utils_outcome cmd (utils_after (show_ref_cmd branch) w)) ].
Proof.
  unfold GitUtils.create_branch_from_remote, show_ref_cmd, create_cmd,
    utils_outcome, utils_after.
  run_simp. cbv zeta.
  destruct (exit_zero (fst (subprocess_run _ None None w))); run_simp; reflexivity.
Qed.

Lemma utils_attempt_listed (available : list string) (alt : string) (w : world) :
  In alt available ->
  value (GitUtils.attempt available alt w)
  = exit_zero (utils_outcome (checkout_cmd alt) w)
  /\ started (GitUtils.attempt available alt w)
     = [(checkout_cmd alt, utils_outcome (checkout_cmd alt) w)].
Proof.
  intros H. apply mem_In in H. unfold GitUtils.attempt, checkout_cmd, utils_outcome.
  rewrite H. run_simp. split; reflexivity.
Qed.

Lemma utils_attempt_unlisted (available : list string) (alt : string) (w : world) :
  ~ In alt available ->
  GitUtils.attempt available alt w = GitUtils.create_branch_from_remote alt w.
Proof.
  intros H. apply mem_false in H. unfold GitUtils.attempt. rewrite H. reflexivity.
Qed.

Lemma utils_try_two (available : list string) (a1 a2 : string) (w : world) :
  let first := GitUtils.attempt available a1 w in
  let second := GitUtils.attempt available a2 (final first) in
  value (GitUtils.try_alternatives available [a1; a2] w)
  = (value first || value second)
  /\ started (GitUtils.try_alternatives available [a1; a2] w)
     = started first ++ (if value first then [] else started second).
Proof.
  cbv zeta. cbn [GitUtils.try_alternatives]. run_simp.
  destruct (value (GitUtils.attempt available a1 w)); run_simp; cbn [orb].
  - split; reflexivity.
  - destruct (value (GitUtils.attempt available a2 _)); run_simp;
      rewrite ?app_nil_r; split; reflexivity.
Qed.

Lemma alternatives_for_spec (target : string) :
  GitUtils.alternatives_for target
  = if String.eqb target "main" || String.eqb target "master"
    then ["master"; "main"] else ["main"; "master"].
Proof.
  unfold GitUtils.alternatives_for, Py.mem. cbn [existsb].
  rewrite orb_false_r.
  destruct (String.eqb target "main" || String.eqb target "master"); reflexivity.
Qed.

Lemma utils_switch_named_value (target : string) (w : world) :
  value (GitUtils.switch_to_named target w)
  = if exit_zero (utils_outcome (checkout_cmd target) w) then true
    else
      let listing :=
        GitUtils.get_available_branches (utils_after (checkout_cmd target) w) in
      if Py.mem target (value listing) then false
      else
        let creation := GitUtils.create_branch_from_remote target (final listing) in
        value creation
        || value (GitUtils.try_alternatives (value listing)
                    (GitUtils.alternatives_for target) (final creation)).
Proof.
  unfold GitUtils.switch_to_named, checkout_cmd, utils_outcome, utils_after.
  run_simp. cbv zeta.
  destruct (exit_zero (fst (subprocess_run _ None None w))); run_simp;
    [reflexivity |].
  destruct (Py.mem target _); cbn [negb]; run_simp; [reflexivity |].
  destruct (value (GitUtils.create_branch_from_remote target _)); run_simp;
    reflexivity.
Qed.

Lemma utils_switch_named_started (target : string) (w : world) :
  started (GitUtils.switch_to_named target w)
  = (checkout_cmd target, utils_outcome (checkout_cmd target) w)
    :: if exit_zero (utils_outcome (checkout_cmd target) w) then []
       else
         let listing :=
           GitUtils.get_available_branches (utils_after (checkout_cmd target) w) in
         started listing
         ++ if Py.mem target (value listing) then []
            else
              let creation :=
                GitUtils.create_branch_from_remote target (final listing) in
              started creation
              ++ if value creation then []
                 else started (GitUtils.try_alternatives (value listing)
                                 (GitUtils.alternatives_for target)
                                 (final creation)).
Proof.
  unfold GitUtils.switch_to_named, checkout_cmd, utils_outcome, utils_after.
  run_simp. cbv zeta.
  destruct (exit_zero (fst (subprocess_run _ None None w))); run_simp;
    [reflexivity |].
  destruct (Py.mem target _); cbn [negb]; run_simp;
    [rewrite app_nil_r; reflexivity |].
  destruct (value (GitUtils.create_branch_from_remote target _)); run_simp;
    rewrite ?app_nil_r; reflexivity.
Qed.


End Resolver.

(** C2, as stated, fails: [feature] is listed but local changes block its
    checkout; [main] could be checked out, yet the resolver gives up after
    listing the branches, without trying [main] or [master]. *)
Lemma listed_target_no_fallback :
  let r := @GitUtils.switch_to_branch Worlds.blocked_checkout
             (Some "feature") tt in
  value r = false
  /\ commands (started r)
     = [checkout_cmd "feature"; ["git"; "branch"]; ["git"; "branch"; "-r"]]
  /\ In "feature" (value (@GitUtils.get_available_branches
                            Worlds.blocked_checkout tt))
  /\ exit_zero (@utils_outcome Worlds.blocked_checkout (checkout_cmd "main") tt)
     = true.
Proof.
  cbv zeta. repeat split; try reflexivity.
  vm_compute. left. reflexivity.
Qed.

(** C2, amended. After a failed direct checkout the resolver lists the
    branches.  A target that is listed ends the operation with failure, no
    alternative being tried.  A target that is not listed is created (from
    [origin/<target>] when that ref exists, else from HEAD); only when this
    fails are the alternatives searched, [main] then [master], or [master]
    then [main] when the target is one of the two: a listed alternative is
    checked out, an unlisted one is created by the same rule, and the first
    that succeeds ends the search with success. *)
Theorem fallback_after_failed_checkout {R : Runtime} (target : string)
    (w : world) :
  exit_zero (utils_outcome (checkout_cmd target) w) = false ->
  let listing :=
    GitUtils.get_available_branches (utils_after (checkout_cmd target) w) in
  let available := value listing in
  let r := GitUtils.switch_to_branch (Some target) w in
  (In target available ->
   value r = false
   /\ commands (started r)
      = [checkout_cmd target; ["git"; "branch"]; ["git"; "branch"; "-r"]])
  /\ (~ In target available ->
      let creation := GitUtils.create_branch_from_remote target (final listing) in
      let search :=
        GitUtils.try_alternatives available (GitUtils.alternatives_for target)
          (final creation) in
      value r = (value creation || value search)
      /\ started r
         = (checkout_cmd target, utils_outcome (checkout_cmd target) w)
           :: started listing ++ started creation
              ++ (if value creation then [] else started search))
  /\ GitUtils.alternatives_for target
     = (if String.eqb target "main" || String.eqb target "master"
        then ["master"; "main"] else ["main"; "master"])
  /\ (forall a1 a2 w',
        let first := GitUtils.attempt available a1 w' in
        let second := GitUtils.attempt available a2 (final first) in
        value (GitUtils.try_alternatives available [a1; a2] w')
        = (value first || value second)
        /\ started (GitUtils.try_alternatives available [a1; a2] w')
           = started first ++ (if value first then [] else started second))
  /\ (forall alt w',
        (In alt available ->
         value (GitUtils.attempt available alt w')
         = exit_zero (utils_outcome (checkout_cmd alt) w')
         /\ started (GitUtils.attempt available alt w')
            = [(checkout_cmd alt, utils_outcome (checkout_cmd alt) w')])
        /\ (~ In alt available ->
            GitUtils.attempt available alt w'
            = GitUtils.create_branch_from_remote alt w'))
  /\ (forall branch w',
        let found := utils_outcome (show_ref_cmd branch) w' in
        let cmd := create_cmd (exit_zero found) branch in
        let created := utils_outcome cmd (utils_after (show_ref_cmd branch) w') in
        value (GitUtils.create_branch_from_remote branch w') = exit_zero created
        /\ started (GitUtils.create_branch_from_remote branch w')
           = [(show_ref_cmd branch, found); (cmd, created)]).
Proof.
  intros Hfail. cbv zeta. cbn [GitUtils.switch_to_branch].
  rewrite utils_switch_named_value, utils_switch_named_started, Hfail. cbv zeta.
  split; [| split; [| split; [| split; [| split]]]].
  - intros Hin. apply mem_In in Hin. rewrite Hin.
    split; [reflexivity |].
    rewrite app_nil_r, utils_available_started. reflexivity.
  - intros Hnot. apply mem_false in Hnot. rewrite Hnot.
    split; reflexivity.
  - apply alternatives_for_spec.
  - intros a1 a2 w'. apply utils_try_two.
  - intros alt w'. split.
    + apply utils_attempt_listed.
    + apply utils_attempt_unlisted.
  - intros branch w'. cbv zeta. split.
    + apply utils_create_value.
    + apply utils_create_started.
Qed.

(** With [feature] listed and its checkout blocked, the resolver fails
    after the two listings. *)
Lemma fallback_after_failed_checkout_witness :
  let r := @GitUtils.switch_to_branch Worlds.blocked_checkout
             (Some "feature") tt in
  value r = false
  /\ commands (started r)
     = [checkout_cmd "feature"; ["git"; "branch"]; ["git"; "branch"; "-r"]].
Proof.
  cbv zeta.
  apply (@fallback_after_failed_checkout Worlds.blocked_checkout "feature" tt).
  - reflexivity.
  - vm_compute. left. reflexivity.
Defined.

Section OpsResolution.
Context {R : Runtime}.
Variable self : GitOperations.t.

(** On a detached HEAD with no branch found, the object creates [main]. *)
Lemma ops_resolve_no_branch (w : world) :
  let query := GitOperations.get_current_branch self w in
  let search := GitOperations.find_best_branch self (final query) in
  let creation := ops_outcome self ["checkout"; "-b"; "main"] (final search) in
  value query = None ->
  value search = None ->
  value (GitOperations.resolve_current_branch self w)
  = (if exit_zero creation then Some "main" else None)
  /\ started (GitOperations.resolve_current_branch self w)
     = started query ++ started search
       ++ [(ops_argv ["checkout"; "-b"; "main"], creation)].
Proof.
  cbv zeta. intros Hquery Hsearch.
  unfold GitOperations.resolve_current_branch.
  run_simp. rewrite Hquery. cbn [Py.given]. run_simp. rewrite Hsearch.
  cbn [Py.given negb].
  unfold GitOperations.create_default_branch, GitOperations.create_new_branch.
  cbn [app]. run_simp.
  destruct (exit_zero _); cbn [negb]; run_simp; rewrite ?app_nil_r;
    split; reflexivity.
Qed.

End OpsResolution.

(** C4, as stated, fails for the object: in a repository without any
    branch, [find_best_branch()] finds nothing, and [execute_git_push]
    creates [main] from HEAD and succeeds. *)
Lemma ops_creates_main_when_no_branch :
  let r := @GitOperations.execute_git_push Worlds.no_branches
             GitOperations.init None None tt in
  value (@GitOperations.find_best_branch Worlds.no_branches
           GitOperations.init tt) = None
  /\ value r = true
  /\ In (ops_argv ["checkout"; "-b"; "main"]) (commands (started r)).
Proof.
  cbv zeta. split; [reflexivity | split; [reflexivity |]].
  vm_compute. do 4 right. left. reflexivity.
Qed.

(** C4, amended. Without a target and without a default branch
    ([origin/HEAD] unresolved, nothing listed), [switch_to_branch()] of
    [git_utils.py] returns [False] after its three queries: it starts no
    checkout and creates no branch.  A run for a requested branch always
    starts with the checkout of that branch, so the two failures leave
    different traces.  The object does otherwise: on a detached HEAD where
    [find_best_branch()] finds nothing, it creates [main] from HEAD, and
    fails only when that creation fails. *)
Theorem no_branch_available_fails {R : Runtime} (self : GitOperations.t)
    (w : world) :
  value (GitUtils.get_default_branch w) = None ->
  let r := GitUtils.switch_to_branch None w in
  value r = false
  /\ final r = final (GitUtils.get_default_branch w)
  /\ commands (started r)
     = [symbolic_ref; ["git"; "branch"]; ["git"; "branch"; "-r"]]
  /\ (forall target w',
        first_command (started (GitUtils.switch_to_branch (Some target) w'))
        = Some (checkout_cmd target))
  /\ (forall target w',
        commands (started (GitUtils.switch_to_branch (Some target) w'))
        <> commands (started r))
  /\ (forall w0,
        let query := GitOperations.get_current_branch self w0 in
        let search := GitOperations.find_best_branch self (final query) in
        let creation :=
          ops_outcome self ["checkout"; "-b"; "main"] (final search) in
        value query = None ->
        value search = None ->
        value (GitOperations.resolve_current_branch self w0)
        = (if exit_zero creation then Some "main" else None)
        /\ started (GitOperations.resolve_current_branch self w0)
           = started query ++ started search
             ++ [(ops_argv ["checkout"; "-b"; "main"], creation)]).
Proof.
  intros Hnone. cbv zeta.
  assert (Hfirst : forall target w',
             first_command (started (GitUtils.switch_to_branch (Some target) w'))
             = Some (checkout_cmd target)).
  { intros target w'. cbn [GitUtils.switch_to_branch].
    rewrite utils_switch_named_started. reflexivity. }
  assert (Hcmds : commands (started (GitUtils.switch_to_branch None w))
                  = [symbolic_ref; ["git"; "branch"]; ["git"; "branch"; "-r"]]).
  { cbn [GitUtils.switch_to_branch]. run_simp. rewrite Hnone. run_simp.
    rewrite app_nil_r, utils_default_started.
    rewrite utils_default_value in Hnone.
    destruct (remote_default (utils_outcome symbolic_ref w)); [discriminate |].
    rewrite utils_available_started. reflexivity. }
  split; [| split; [| split; [| split; [| split]]]].
  - cbn [GitUtils.switch_to_branch]. run_simp. rewrite Hnone. reflexivity.
  - cbn [GitUtils.switch_to_branch]. run_simp. rewrite Hnone. reflexivity.
  - exact Hcmds.
  - exact Hfirst.
  - intros target w' E. specialize (Hfirst target w').
    unfold first_command in Hfirst. rewrite E, Hcmds in Hfirst.
    discriminate.
  - intros w0. apply ops_resolve_no_branch.
Qed.

(** A repository without branches and without a remote. *)
Lemma no_branch_available_fails_witness :
  let r := @GitUtils.switch_to_branch Worlds.no_branches None tt in
  value r = false
  /\ commands (started r)
     = [symbolic_ref; ["git"; "branch"]; ["git"; "branch"; "-r"]].
Proof.
  cbv zeta.
  destruct (@no_branch_available_fails Worlds.no_branches GitOperations.init
              tt eq_refl) as (Hv & _ & Hc & _).
  split; [exact Hv | exact Hc].
Defined.






(** ** Staging, committing and pushing, [git_operations.py] *)

Section Emits.
Context {R : Runtime}.

Lemma emits_ret {A} (allowed : list string) (a : A) : emits allowed (ret a).
Proof. intros w. constructor. Qed.

Lemma emits_bind {A B} (allowed : list string) (m : M A) (k : A -> M B) :
  emits allowed m -> (forall a, emits allowed (k a)) ->
  emits allowed (bind m k).
Proof.
  intros Hm Hk w. rewrite started_bind. apply Forall_app. split.
  - apply Hm.
  - apply Hk.
Qed.

Lemma emits_run (allowed : list string) (self : GitOperations.t)
    (sub : string) (args : list string) (capture : bool) :
  In sub allowed ->
  emits allowed (GitOperations.run_git_command self (sub :: args) capture).
Proof.
  intros H w. rewrite ops_run_started. constructor; [exact H | constructor].
Qed.

End Emits.

Ltac emits_step :=
  first
    [ apply emits_ret
    | apply emits_run; cbn; tauto
    | apply emits_bind; [| intros ?]
    | match goal with
      | |- emits _ (let '(_, _) := ?p in _) => destruct p
      | |- emits _ (if ?c then _ else _) => destruct c
      | |- emits _ (match ?x with _ => _ end) => destruct x
      end ].

Section Staging.
Context {R : Runtime}.
Variable self : GitOperations.t.

Lemma emits_get_available :
  emits ["branch"; "fetch"; "checkout"]
    (GitOperations.get_available_branches self).
Proof. unfold GitOperations.get_available_branches. repeat emits_step. Qed.

Lemma emits_resolve :
  emits ["branch"; "fetch"; "checkout"]
    (GitOperations.resolve_current_branch self).
Proof.
  pose proof emits_get_available as Hav.
  unfold GitOperations.resolve_current_branch, GitOperations.get_current_branch,
    GitOperations.find_best_branch, GitOperations.fetch_remote_branches,
    GitOperations.create_default_branch, GitOperations.ensure_branch_available,
    GitOperations.create_branch_from_remote, GitOperations.create_new_branch,
    GitOperations.switch_to_branch.
  repeat first [exact Hav | emits_step].
Qed.

Lemma emits_stage_each (files : list string) :
  emits ["add"] (GitOperations.stage_each self files).
Proof.
  induction files as [| file rest IH]; cbn [GitOperations.stage_each].
  - apply emits_ret.
  - repeat first [exact IH | emits_step].
Qed.

Lemma emits_stage (files : option (list string)) :
  emits ["add"] (GitOperations.stage self files).
Proof.
  unfold GitOperations.stage.
  destruct files as [[| file rest] |];
    repeat first [apply emits_stage_each | emits_step].
Qed.

End Staging.

(** C7. When staging succeeds and [git diff --cached --quiet] exits with
    status 0 (nothing is staged), [GitOperations.execute_git_push] returns
    [True]; the diff is the last subprocess it starts, and none of its
    subprocesses is a commit or a push. *)
Theorem nothing_staged_is_noop {R : Runtime} (self : GitOperations.t)
    (message : option string) (files : option (list string)) (w : world)
    (branch : string) :
  let resolution := GitOperations.resolve_current_branch self w in
  let staging := GitOperations.stage self files (final resolution) in
  let nothing := ops_outcome self diff_args (final staging) in
  let r := GitOperations.execute_git_push self message files w in
  value resolution = Some branch ->
  value staging = true ->
  exit_zero nothing = true ->
  value r = true
  /\ started r
     = started resolution ++ started staging ++ [(ops_argv diff_args, nothing)]
  /\ final r = ops_after self diff_args (final staging)
  /\ (forall e, In e (started r) ->
                subcommand e <> "commit" /\ subcommand e <> "push").
Proof.
  cbv zeta. intros Hres Hstage Hdiff.
  assert (Hrun : started (GitOperations.execute_git_push self message files w)
                 = started (GitOperations.resolve_current_branch self w)
                   ++ started (GitOperations.stage self files
                                 (final (GitOperations.resolve_current_branch self w)))
                   ++ [(ops_argv diff_args,
                        ops_outcome self diff_args
                          (final (GitOperations.stage self files
                                    (final (GitOperations.resolve_current_branch
                                              self w)))))]).
  { unfold GitOperations.execute_git_push. run_simp. rewrite Hres.
    unfold GitOperations.stage_commit_push. run_simp. rewrite Hstage.
    cbn [negb]. run_simp. fold diff_args. rewrite Hdiff. run_simp.
    rewrite app_nil_r. reflexivity. }
  split; [| split; [exact Hrun | split]].
  - unfold GitOperations.execute_git_push. run_simp. rewrite Hres.
    unfold GitOperations.stage_commit_push. run_simp. rewrite Hstage.
    cbn [negb]. run_simp. fold diff_args. rewrite Hdiff. reflexivity.
  - unfold GitOperations.execute_git_push. run_simp. rewrite Hres.
    unfold GitOperations.stage_commit_push. run_simp. rewrite Hstage.
    cbn [negb]. run_simp. fold diff_args. rewrite Hdiff. run_simp. reflexivity.
  - intros e He. rewrite Hrun in He.
    apply in_app_or in He. destruct He as [He | He].
    + pose proof (emits_resolve self w) as Hall.
      rewrite Forall_forall in Hall. specialize (Hall e He).
      cbn in Hall. split; intros E; rewrite E in Hall;
        decompose [or] Hall; discriminate || contradiction.
    + apply in_app_or in He. destruct He as [He | [<- | []]].
      * pose proof (emits_stage self files
                      (final (GitOperations.resolve_current_branch self w)))
          as Hall.
        rewrite Forall_forall in Hall. specialize (Hall e He).
        cbn in Hall. split; intros E; rewrite E in Hall;
          decompose [or] Hall; discriminate || contradiction.
      * split; discriminate.
Qed.

(** On [main] with a clean tree: one query, one [add], the diff, and
    success. *)
Lemma nothing_staged_is_noop_witness :
  let r := @GitOperations.execute_git_push Worlds.clean_tree GitOperations.init
             None None tt in
  value r = true
  /\ commands (started r)
     = [ ops_argv ["branch"; "--show-current"]; ops_argv ["add"; "."];
         ops_argv diff_args ].
Proof.
  cbv zeta.
  destruct (@nothing_staged_is_noop Worlds.clean_tree GitOperations.init None None
              tt "main" eq_refl eq_refl eq_refl) as (Hv & Hs & _).
  split; [exact Hv |].
  rewrite Hs. reflexivity.
Defined.


(** * Further properties of the two modules *)

(** ** Traces that end in a success *)

Lemma ends_ok_last (good : list string -> bool) (t : list event)
    (cmd : list string) (o : run_outcome) :
  good cmd = true -> exit_zero o = true -> ends_ok good (t ++ [(cmd, o)]).
Proof.
  intros Hg Ho. exists t, cmd, o. repeat split; assumption.
Qed.

Lemma ends_ok_app (good : list string -> bool) (t1 t2 : list event) :
  ends_ok good t2 -> ends_ok good (t1 ++ t2).
Proof.
  intros (before & cmd & o & -> & Hg & Ho).
  rewrite app_assoc. apply ends_ok_last; assumption.
Qed.

Lemma ends_ok_cons (good : list string -> bool) (e : event) (t : list event) :
  ends_ok good t -> ends_ok good (e :: t).
Proof. intros H. apply (ends_ok_app good [e] t H). Qed.

Lemma ends_ok_one (good : list string -> bool) (cmd : list string)
    (o : run_outcome) :
  good cmd = true -> exit_zero o = true -> ends_ok good [(cmd, o)].
Proof. intros Hg Ho. apply (ends_ok_last good [] cmd o Hg Ho). Qed.

Lemma ends_ok_weaken (good good' : list string -> bool) (t : list event) :
  (forall cmd, good cmd = true -> good' cmd = true) ->
  ends_ok good t -> ends_ok good' t.
Proof.
  intros Himp (before & cmd & o & -> & Hg & Ho).
  apply ends_ok_last; [apply Himp; exact Hg | exact Ho].
Qed.

(** ** The resolver of [git_utils.py], continued *)

Section ResolverSuccess.
Context {R : Runtime}.

Lemma create_success_ends (branch : string) (w : world) :
  value (GitUtils.create_branch_from_remote branch w) = true ->
  ends_ok (is_git "checkout") (started (GitUtils.create_branch_from_remote branch w)).
Proof.
  rewrite utils_create_value, utils_create_started. cbv zeta. intros H.
  apply ends_ok_cons. apply ends_ok_one; [| exact H].
  destruct (exit_zero (utils_outcome (show_ref_cmd branch) w)); reflexivity.
Qed.

Lemma attempt_success_ends (available : list string) (alt : string) (w : world) :
  value (GitUtils.attempt available alt w) = true ->
  ends_ok (is_git "checkout") (started (GitUtils.attempt available alt w)).
Proof.
  unfold GitUtils.attempt. destruct (Py.mem alt available).
  - run_simp. intros H. apply ends_ok_one; [reflexivity | exact H].
  - apply create_success_ends.
Qed.

Lemma try_alternatives_success_ends (available alternatives : list string)
    (w : world) :
  value (GitUtils.try_alternatives available alternatives w) = true ->
  ends_ok (is_git "checkout")
    (started (GitUtils.try_alternatives available alternatives w)).
Proof.
  revert w. induction alternatives as [| alt rest IH]; intros w;
    cbn [GitUtils.try_alternatives].
  - run_simp. discriminate.
  - run_simp.
    destruct (value (GitUtils.attempt available alt w)) eqn:E; run_simp.
    + intros _. rewrite app_nil_r. apply attempt_success_ends. exact E.
    + intros H. apply ends_ok_app. apply IH. exact H.
Qed.

Lemma switch_named_success_ends (target : string) (w : world) :
  value (GitUtils.switch_to_named target w) = true ->
  ends_ok (is_git "checkout") (started (GitUtils.switch_to_named target w)).
Proof.
  rewrite utils_switch_named_value, utils_switch_named_started. cbv zeta.
  destruct (exit_zero (utils_outcome (checkout_cmd target) w)) eqn:E.
  - intros _. apply ends_ok_one; [reflexivity | exact E].
  - destruct (Py.mem target _); [discriminate |].
    destruct (value (GitUtils.create_branch_from_remote target _)) eqn:Ec;
      cbn [orb].
    + intros _. rewrite app_nil_r. apply ends_ok_cons, ends_ok_app.
      apply create_success_ends. exact Ec.
    + intros H. apply ends_ok_cons, ends_ok_app, ends_ok_app.
      apply try_alternatives_success_ends. exact H.
Qed.

End ResolverSuccess.

(** X1. [switch_to_branch] returns [True] only when the last subprocess
    it started is a [git checkout] that exited with status 0: it never
    reports a switch that [git] did not make. *)
Theorem switch_success_is_a_checkout {R : Runtime}
    (target_branch : option string) (w : world) :
  value (GitUtils.switch_to_branch target_branch w) = true ->
  ends_ok (is_git "checkout")
    (started (GitUtils.switch_to_branch target_branch w)).
Proof.
  destruct target_branch as [target |]; cbn [GitUtils.switch_to_branch].
  - apply switch_named_success_ends.
  - run_simp.
    destruct (value (GitUtils.get_default_branch w)) as [target |]; run_simp.
    + intros H. apply ends_ok_app. apply switch_named_success_ends. exact H.
    + discriminate.
Qed.

(** From a detached HEAD with [develop], [main] and [master]: the default
    is [main] and its checkout ends the trace. *)
Lemma switch_success_is_a_checkout_witness :
  ends_ok (is_git "checkout")
    (started (@GitUtils.switch_to_branch Worlds.detached_main None tt)).
Proof.
  apply (@switch_success_is_a_checkout Worlds.detached_main None tt).
  reflexivity.
Defined.

Section ResolverFinal.
Context {R : Runtime}.

Lemma utils_create_final (branch : string) (w : world) :
  final (GitUtils.create_branch_from_remote branch w)
  = utils_after
      (create_cmd (exit_zero (utils_outcome (show_ref_cmd branch) w)) branch)
      (utils_after (show_ref_cmd branch) w).
Proof.
  unfold GitUtils.create_branch_from_remote, show_ref_cmd, create_cmd,
    utils_outcome, utils_after.
  run_simp.
  destruct (exit_zero (fst (subprocess_run _ None None w))); run_simp;
    reflexivity.
Qed.

Lemma utils_switch_named_final (target : string) (w : world) :
  final (GitUtils.switch_to_named target w)
  = if exit_zero (utils_outcome (checkout_cmd target) w)
    then utils_after (checkout_cmd target) w
    else
      let listing :=
        GitUtils.get_available_branches (utils_after (checkout_cmd target) w) in
      if Py.mem target (value listing) then final listing
      else
        let creation := GitUtils.create_branch_from_remote target (final listing) in
        if value creation then final creation
        else final (GitUtils.try_alternatives (value listing)
                      (GitUtils.alternatives_for target) (final creation)).
Proof.
  unfold GitUtils.switch_to_named, checkout_cmd, utils_outcome, utils_after.
  run_simp. cbv zeta.
  destruct (exit_zero (fst (subprocess_run _ None None w))); run_simp;
    [reflexivity |].
  destruct (Py.mem target _); cbn [negb]; run_simp; [reflexivity |].
  destruct (value (GitUtils.create_branch_from_remote target _)); run_simp;
    reflexivity.
Qed.

End ResolverFinal.

(** X2. A target that [git] cannot check out and that is not among the
    available branches is created on the spot: tracking [origin/<target>]
    when [show-ref] finds that ref, from the current HEAD otherwise.  When
    the creation succeeds the resolver returns [True] after five
    subprocesses and tries no alternative; a mistyped name thus becomes a
    new branch. *)
Theorem unlisted_target_is_created {R : Runtime} (target : string) (w : world) :
  let listing :=
    GitUtils.get_available_branches (utils_after (checkout_cmd target) w) in
  let found := utils_outcome (show_ref_cmd target) (final listing) in
  let cmd := create_cmd (exit_zero found) target in
  let created :=
    utils_outcome cmd (utils_after (show_ref_cmd target) (final listing)) in
  let r := GitUtils.switch_to_branch (Some target) w in
  exit_zero (utils_outcome (checkout_cmd target) w) = false ->
  ~ In target (value listing) ->
  exit_zero created = true ->
  value r = true
  /\ commands (started r)
     = [ checkout_cmd target; ["git"; "branch"]; ["git"; "branch"; "-r"];
         show_ref_cmd target; cmd ]
  /\ final r = utils_after cmd (utils_after (show_ref_cmd target) (final listing)).
Proof.
  cbv zeta. intros Hfail Hnot Hcreated.
  apply mem_false in Hnot. cbn [GitUtils.switch_to_branch].
  rewrite utils_switch_named_value, utils_switch_named_started,
    utils_switch_named_final.
  cbv zeta.
  rewrite Hfail, Hnot, utils_create_value, utils_create_started,
    utils_create_final.
  cbv zeta.
  rewrite Hcreated, utils_available_started. cbn [orb].
  repeat split.
Qed.

(** The name of the test suite's error scenario is created from HEAD. *)
Lemma unlisted_target_is_created_witness :
  let r := @GitUtils.switch_to_branch Worlds.unknown_name
             (Some "non_existent_branch_12345") tt in
  value r = true
  /\ commands (started r)
     = [ checkout_cmd "non_existent_branch_12345"; ["git"; "branch"];
         ["git"; "branch"; "-r"]; show_ref_cmd "non_existent_branch_12345";
         ["git"; "checkout"; "-b"; "non_existent_branch_12345"] ].
Proof.
  cbv zeta.
  pose proof (@unlisted_target_is_created Worlds.unknown_name
                "non_existent_branch_12345" tt) as H.
  cbv zeta in H. destruct H as (Hv & Hc & _).
  - reflexivity.
  - vm_compute. intros H. intuition discriminate.
  - reflexivity.
  - split; [exact Hv | exact Hc].
Defined.

(** X3. A target that the remote listing shows as [origin/<target>] counts
    as available.  So when its direct checkout fails, the resolver returns
    [False] after the two listings: it creates no tracking branch, although
    the remote branch exists. *)
Theorem remote_listed_target_not_created {R : Runtime} (target : string)
    (w : world) :
  set_semantics R ->
  exit_zero (utils_outcome (checkout_cmd target) w) = false ->
  (exists line,
      In line (utils_remote_lines (utils_after (checkout_cmd target) w))
      /\ origin_name line = Some target) ->
  let r := GitUtils.switch_to_branch (Some target) w in
  value r = false
  /\ commands (started r)
     = [checkout_cmd target; ["git"; "branch"]; ["git"; "branch"; "-r"]].
Proof.
  intros Hset Hfail Hline. cbv zeta.
  assert (Hin : Py.mem target
                  (value (GitUtils.get_available_branches
                            (utils_after (checkout_cmd target) w))) = true).
  { apply mem_In. rewrite utils_available_value. apply (Hset _).
    apply utils_collected_In. right. exact Hline. }
  cbn [GitUtils.switch_to_branch].
  rewrite utils_switch_named_value, utils_switch_named_started. cbv zeta.
  rewrite Hfail, Hin, app_nil_r, utils_available_started.
  split; reflexivity.
Qed.

(** [feature] exists on two remotes: its checkout is ambiguous, and the
    resolver stops although [origin/feature] could be tracked. *)
Lemma remote_listed_target_not_created_witness :
  let r := @GitUtils.switch_to_branch Worlds.ambiguous_remote
             (Some "feature") tt in
  value r = false
  /\ commands (started r)
     = [checkout_cmd "feature"; ["git"; "branch"]; ["git"; "branch"; "-r"]].
Proof.
  cbv zeta.
  apply (@remote_listed_target_not_created Worlds.ambiguous_remote "feature" tt
           (scripted_set_semantics _ _)).
  - reflexivity.
  - exists "origin/feature". split; [| reflexivity].
    vm_compute. left. reflexivity.
Defined.

(** ** What [git_utils.py] starts *)

Section UtilsEmits.
Context {R : Runtime}.

Lemma utils_emits_ret {A} (allowed : list string) (a : A) :
  utils_emits allowed (ret a).
Proof. intros w. constructor. Qed.

Lemma utils_emits_bind {A B} (allowed : list string) (m : M A) (k : A -> M B) :
  utils_emits allowed m -> (forall a, utils_emits allowed (k a)) ->
  utils_emits allowed (bind m k).
Proof.
  intros Hm Hk w. rewrite started_bind. apply Forall_app. split.
  - apply Hm.
  - apply Hk.
Qed.

Lemma utils_emits_run (allowed : list string) (sub : string)
    (args : list string) (cwd : option string) :
  In sub allowed ->
  utils_emits allowed (GitUtils.run_git_command ("git" :: sub :: args) cwd).
Proof.
  intros H w. rewrite utils_run_started. constructor; [exact H | constructor].
Qed.

Lemma utils_emits_weaken {A} (allowed allowed' : list string) (m : M A) :
  incl allowed allowed' -> utils_emits allowed m -> utils_emits allowed' m.
Proof.
  intros Hincl Hm w. specialize (Hm w).
  rewrite Forall_forall in *. intros e He. apply Hincl. apply Hm. exact He.
Qed.

End UtilsEmits.

Ltac utils_emits_step :=
  first
    [ apply utils_emits_ret
    | apply utils_emits_run; cbn; tauto
    | apply utils_emits_bind; [| intros ?]
    | match goal with
      | |- utils_emits _ (let '(_, _) := ?p in _) => destruct p
      | |- utils_emits _ (if ?c then _ else _) => destruct c
      | |- utils_emits _ (match ?x with _ => _ end) => destruct x
      end ].

Ltac utils_emits_by H :=
  eapply utils_emits_weaken; [| apply H]; intros ? ?; cbn in *; tauto.

Section UtilsStarts.
Context {R : Runtime}.

Lemma utils_emits_available :
  utils_emits ["branch"] GitUtils.get_available_branches.
Proof. unfold GitUtils.get_available_branches. repeat utils_emits_step. Qed.

Lemma utils_emits_detached : utils_emits ["branch"] GitUtils.is_detached_head.
Proof. unfold GitUtils.is_detached_head. repeat utils_emits_step. Qed.

Lemma utils_emits_default :
  utils_emits ["symbolic-ref"; "branch"] GitUtils.get_default_branch.
Proof.
  unfold GitUtils.get_default_branch.
  repeat first [utils_emits_by utils_emits_available | utils_emits_step].
Qed.

Lemma utils_emits_create (branch : string) :
  utils_emits ["show-ref"; "checkout"]
    (GitUtils.create_branch_from_remote branch).
Proof. unfold GitUtils.create_branch_from_remote. repeat utils_emits_step. Qed.

Lemma utils_emits_attempt (available : list string) (alt : string) :
  utils_emits ["show-ref"; "checkout"] (GitUtils.attempt available alt).
Proof.
  unfold GitUtils.attempt.
  repeat first [apply utils_emits_create | utils_emits_step].
Qed.

Lemma utils_emits_alternatives (available alternatives : list string) :
  utils_emits ["show-ref"; "checkout"]
    (GitUtils.try_alternatives available alternatives).
Proof.
  induction alternatives as [| alt rest IH]; cbn [GitUtils.try_alternatives].
  - apply utils_emits_ret.
  - repeat first [apply utils_emits_attempt | exact IH | utils_emits_step].
Qed.

Lemma utils_emits_switch_named (target : string) :
  utils_emits ["branch"; "show-ref"; "checkout"]
    (GitUtils.switch_to_named target).
Proof.
  unfold GitUtils.switch_to_named.
  repeat first
    [ utils_emits_by utils_emits_available
    | utils_emits_by (utils_emits_create target)
    | utils_emits_by utils_emits_alternatives
    | utils_emits_step ].
Qed.

Lemma utils_emits_switch (target_branch : option string) :
  utils_emits ["symbolic-ref"; "branch"; "show-ref"; "checkout"]
    (GitUtils.switch_to_branch target_branch).
Proof.
  unfold GitUtils.switch_to_branch.
  repeat first
    [ utils_emits_by utils_emits_default
    | utils_emits_by utils_emits_switch_named
    | utils_emits_step ].
Qed.

Lemma utils_emits_push_current (force : bool) :
  utils_emits ["branch"; "push"] (GitUtils.push_current force).
Proof.
  unfold GitUtils.push_current. cbn [app].
  repeat utils_emits_step.
Qed.

End UtilsStarts.

(** X4. [switch_to_branch] starts nothing but [git symbolic-ref],
    [git branch], [git show-ref] and [git checkout]: it never fetches,
    commits or pushes, and with a target given it does not ask for
    [origin/HEAD] either. *)
Theorem switch_starts_only_local_commands {R : Runtime}
    (target_branch : option string) (w : world) :
  Forall
    (fun e =>
       In (utils_subcommand e) ["symbolic-ref"; "branch"; "show-ref"; "checkout"])
    (started (GitUtils.switch_to_branch target_branch w))
  /\ (forall target,
        target_branch = Some target ->
        Forall
          (fun e => In (utils_subcommand e) ["branch"; "show-ref"; "checkout"])
          (started (GitUtils.switch_to_branch target_branch w))).
Proof.
  split.
  - apply utils_emits_switch.
  - intros target ->. cbn [GitUtils.switch_to_branch].
    apply utils_emits_switch_named.
Qed.

Section UtilsPushSuccess.
Context {R : Runtime}.

Lemma push_current_success_ends (force : bool) (w : world) :
  value (GitUtils.push_current force w) = true ->
  ends_ok (is_git "push") (started (GitUtils.push_current force w)).
Proof.
  unfold GitUtils.push_current. cbn [app]. run_simp.
  destruct (negb _ || negb _); run_simp; [discriminate |].
  match goal with
  | |- context [exit_zero (fst (subprocess_run ?c None None ?w1))] =>
      destruct (exit_zero (fst (subprocess_run c None None w1))) eqn:E
  end; run_simp.
  - intros _. apply ends_ok_cons. apply ends_ok_one; [| exact E].
    destruct force; reflexivity.
  - destruct (GitUtils.indicates_missing_upstream _); run_simp;
      [| discriminate].
    intros H. apply ends_ok_cons, ends_ok_cons.
    apply ends_ok_one; [reflexivity | exact H].
Qed.

End UtilsPushSuccess.

Lemma ends_with_refl (t : list event) : ends_with t t.
Proof. exists []. reflexivity. Qed.

Lemma ends_with_app (suffix t1 t2 : list event) :
  ends_with suffix t2 -> ends_with suffix (t1 ++ t2).
Proof.
  intros (before & ->). exists (t1 ++ before). apply app_assoc.
Qed.

Lemma ends_with_cons (suffix : list event) (e : event) (t : list event) :
  ends_with suffix t -> ends_with suffix (e :: t).
Proof. intros H. apply (ends_with_app suffix [e] t H). Qed.

Section UtilsPushShape.
Context {R : Runtime}.

(** The last part of [execute_git_push]: without a named current branch
    nothing is pushed; a success is a push of the branch the query named. *)
Lemma push_current_shape (force : bool) (w : world) :
  let q := utils_outcome show_current_cmd w in
  let b := utils_output q in
  let r := GitUtils.push_current force w in
  (exit_zero q && Py.truthy b = false ->
   value r = false /\ started r = [(show_current_cmd, q)])
  /\ (value r = true ->
      exit_zero q = true
      /\ Py.truthy b = true
      /\ exists pushes,
          started r = (show_current_cmd, q) :: pushes
          /\ Forall
               (fun e =>
                  argv_of e = push_cmd force b
                  \/ argv_of e = set_upstream_cmd b)
               pushes).
Proof.
  cbv zeta. unfold GitUtils.push_current, utils_outcome, show_current_cmd.
  cbn [app]. run_simp.
  destruct (exit_zero (fst (subprocess_run _ None None w)));
    cbn [negb orb andb];
    [| run_simp; split; [intros _; split; reflexivity | discriminate]].
  destruct (Py.truthy _); cbn [negb]; run_simp;
    [| split; [intros _; split; reflexivity | discriminate]].
  split; [discriminate |].
  intros Hvalue. split; [reflexivity |]. split; [reflexivity |].
  eexists. split; [reflexivity |].
  match goal with
  | |- context [exit_zero (fst (subprocess_run ?c None None ?w1))] =>
      destruct (exit_zero (fst (subprocess_run c None None w1)))
  end; run_simp.
  - constructor; [| constructor]. left. destruct force; reflexivity.
  - destruct (GitUtils.indicates_missing_upstream _); run_simp.
    + constructor; [left; destruct force; reflexivity |].
      constructor; [right; reflexivity | constructor].
    + constructor; [| constructor]. left. destruct force; reflexivity.
Qed.

(** A successful [execute_git_push] ends with a successful last part. *)
Lemma execute_success_reaches_push (target_branch : option string)
    (force : bool) (w : world) :
  value (GitUtils.execute_git_push target_branch force w) = true ->
  exists w',
    ends_with (started (GitUtils.push_current force w'))
      (started (GitUtils.execute_git_push target_branch force w))
    /\ value (GitUtils.push_current force w') = true.
Proof.
  unfold GitUtils.execute_git_push. run_simp.
  destruct (negb (exit_zero _)); run_simp; [discriminate |].
  destruct (value (GitUtils.is_detached_head _)); run_simp.
  - destruct (negb (value (GitUtils.switch_to_branch target_branch _)));
      run_simp; [discriminate |].
    intros H. eexists. split; [| exact H].
    apply ends_with_cons, ends_with_app, ends_with_app, ends_with_refl.
  - destruct (exit_zero _ && Py.truthy _); run_simp.
    + intros H. eexists. split; [| exact H].
      apply ends_with_cons, ends_with_app, ends_with_cons, ends_with_refl.
    + destruct (Py.given target_branch); run_simp.
      * destruct (negb (value (GitUtils.switch_to_branch target_branch _)));
          run_simp; [discriminate |].
        intros H. eexists. split; [| exact H].
        apply ends_with_cons, ends_with_app, ends_with_cons, ends_with_app,
          ends_with_refl.
      * intros H. eexists. split; [| exact H].
        apply ends_with_cons, ends_with_app, ends_with_cons, ends_with_refl.
Qed.

End UtilsPushShape.

(** X5. [execute_git_push] of [git_utils.py] returns [True] only when the
    last subprocess it started is a [git push] that exited with status 0,
    and then its trace ends with a query [git branch --show-current] that
    named a branch, followed by pushes of that branch only: an
    undetermined current branch never ends in success.  A failed status
    query ends the operation with [False] after that single subprocess.  On
    a detached HEAD a failed switch ends it with [False] before anything
    is pushed; so does, off a detached HEAD, a failed switch to the given
    target when the current branch could not be determined. *)
Theorem utils_push_success_is_a_push {R : Runtime}
    (target_branch : option string) (force : bool) (w : world) :
  let r := GitUtils.execute_git_push target_branch force w in
  let status := utils_outcome status_cmd w in
  let detached := GitUtils.is_detached_head (utils_after status_cmd w) in
  let q1 := utils_outcome show_current_cmd (final detached) in
  let local_only :=
    fun e : event =>
      In (utils_subcommand e)
        ["status"; "branch"; "symbolic-ref"; "show-ref"; "checkout"] in
  (value r = true ->
   ends_ok (is_git "push") (started r)
   /\ exists before q pushes,
       started r = before ++ (show_current_cmd, q) :: pushes
       /\ exit_zero q = true
       /\ Py.truthy (utils_output q) = true
       /\ Forall
            (fun e =>
               argv_of e = push_cmd force (utils_output q)
               \/ argv_of e = set_upstream_cmd (utils_output q))
            pushes)
  /\ (exit_zero status = false ->
      value r = false /\ commands (started r) = [status_cmd])
  /\ (exit_zero status = true ->
      value detached = true ->
      value (GitUtils.switch_to_branch target_branch (final detached)) = false ->
      value r = false /\ Forall local_only (started r))
  /\ (exit_zero status = true ->
      value detached = false ->
      exit_zero q1 && Py.truthy (utils_output q1) = false ->
      Py.given target_branch = true ->
      value (GitUtils.switch_to_branch target_branch
               (utils_after show_current_cmd (final detached))) = false ->
      value r = false /\ Forall local_only (started r)).
Proof.
  cbv zeta. split; [| split; [| split]].
  - intros Hvalue.
    destruct (execute_success_reaches_push _ _ _ Hvalue)
      as (w' & (before & Htrace) & Hpush).
    split.
    + rewrite Htrace. apply ends_ok_app.
      apply push_current_success_ends. exact Hpush.
    + destruct (push_current_shape force w') as (_ & Hshape).
      destruct (Hshape Hpush) as (Hq & Hname & pushes & Hstarted & Hall).
      exists before, (utils_outcome show_current_cmd w'), pushes.
      rewrite Htrace, Hstarted. repeat split; assumption.
  - intros Hstatus. unfold GitUtils.execute_git_push, utils_outcome, status_cmd in *.
    run_simp. rewrite Hstatus. cbn [negb]. run_simp. split; reflexivity.
  - intros Hstatus Hdetached Hswitch.
    unfold GitUtils.execute_git_push, utils_outcome, utils_after, status_cmd in *.
    run_simp. rewrite Hstatus. cbn [negb]. run_simp.
    rewrite Hdetached. run_simp. rewrite Hswitch. cbn [negb]. run_simp.
    split; [reflexivity |].
    constructor; [cbn; tauto |].
    apply Forall_app. split.
    + generalize (utils_emits_detached (snd (subprocess_run
                    ["git"; "status"; "--porcelain"] None None w))).
      apply Forall_impl. intros e He. cbn in *. tauto.
    + rewrite app_nil_r.
      generalize (utils_emits_switch target_branch
                    (final (GitUtils.is_detached_head
                              (snd (subprocess_run
                                      ["git"; "status"; "--porcelain"]
                                      None None w))))).
      apply Forall_impl. intros e He. cbn in *. tauto.
  - intros Hstatus Hdetached Hq Hgiven Hswitch.
    unfold GitUtils.execute_git_push, utils_outcome, utils_after, status_cmd,
      show_current_cmd in *.
    run_simp. rewrite Hstatus. cbn [negb]. run_simp.
    rewrite Hdetached. run_simp. rewrite Hq, Hgiven. run_simp.
    rewrite Hswitch. cbn [negb]. run_simp.
    split; [reflexivity |].
    constructor; [cbn; tauto |].
    apply Forall_app. split.
    + generalize (utils_emits_detached (snd (subprocess_run
                    ["git"; "status"; "--porcelain"] None None w))).
      apply Forall_impl. intros e He. cbn in *. tauto.
    + constructor; [cbn; tauto |].
      rewrite app_nil_r.
      match goal with
      | |- Forall _ (started (GitUtils.switch_to_branch _ ?w2)) =>
          generalize (utils_emits_switch target_branch w2)
      end.
      apply Forall_impl. intros e He. cbn in *. tauto.
Qed.

(** From a detached HEAD: the switch to [main], then the push of [main]. *)
Lemma utils_push_success_is_a_push_witness :
  ends_ok (is_git "push")
    (started (@GitUtils.execute_git_push Worlds.detached_main None false tt)).
Proof.
  pose proof (@utils_push_success_is_a_push Worlds.detached_main None false tt)
    as H.
  cbv zeta in H. destruct H as (H & _).
  destruct (H eq_refl) as (Hends & _). exact Hends.
Defined.

Lemma result_ext {R : Runtime} {A : Type} (r r' : A * world * list event) :
  value r = value r' -> final r = final r' -> started r = started r' -> r = r'.
Proof.
  destruct r as [[a w] t], r' as [[a' w'] t']. unfold value, final, started.
  cbn. intros -> -> ->. reflexivity.
Qed.

Section UtilsOnBranch.
Context {R : Runtime}.

Lemma utils_push_on_branch (target_branch : option string) (force : bool)
    (w : world) :
  let w1 := utils_after status_cmd w in
  let w2 := final (GitUtils.is_detached_head w1) in
  let q := utils_outcome show_current_cmd w2 in
  let push := GitUtils.push_current force (utils_after show_current_cmd w2) in
  exit_zero (utils_outcome status_cmd w) = true ->
  value (GitUtils.is_detached_head w1) = false ->
  exit_zero q = true ->
  Py.truthy (utils_output q) = true ->
  GitUtils.execute_git_push target_branch force w
  = (value push, final push,
     (status_cmd, utils_outcome status_cmd w)
       :: started (GitUtils.is_detached_head w1)
       ++ (show_current_cmd, q) :: started push).
Proof.
  cbv zeta. unfold utils_outcome, utils_after, status_cmd, show_current_cmd.
  intros Hstatus Hdetached Hq Hname.
  apply result_ext;
    unfold GitUtils.execute_git_push; run_simp; rewrite Hstatus; cbn [negb];
    run_simp; rewrite Hdetached; run_simp; rewrite Hq, Hname; cbn [andb];
    reflexivity.
Qed.

End UtilsOnBranch.

(** X6. On a branch ([git status] works, [git branch] shows no detached
    HEAD, [git branch --show-current] names the branch), [execute_git_push]
    of [git_utils.py] ignores its target argument: whatever target is
    passed, the run is the same, and it starts no checkout, only
    [git status], [git branch] and [git push]. *)
Theorem push_on_a_branch_ignores_target {R : Runtime}
    (target_branch other : option string) (force : bool) (w : world) :
  let w1 := utils_after status_cmd w in
  let q := utils_outcome show_current_cmd
             (final (GitUtils.is_detached_head w1)) in
  exit_zero (utils_outcome status_cmd w) = true ->
  value (GitUtils.is_detached_head w1) = false ->
  exit_zero q = true ->
  Py.truthy (utils_output q) = true ->
  GitUtils.execute_git_push target_branch force w
  = GitUtils.execute_git_push other force w
  /\ Forall (fun e => In (utils_subcommand e) ["status"; "branch"; "push"])
       (started (GitUtils.execute_git_push target_branch force w)).
Proof.
  cbv zeta. intros Hstatus Hdetached Hq Hname.
  pose proof (utils_push_on_branch target_branch force w
                Hstatus Hdetached Hq Hname) as E.
  pose proof (utils_push_on_branch other force w
                Hstatus Hdetached Hq Hname) as E'.
  cbv zeta in E, E'. split.
  - rewrite E, E'. reflexivity.
  - rewrite E. unfold started at 1. cbn [snd].
    constructor; [cbn; tauto |].
    apply Forall_app. split.
    + generalize (utils_emits_detached (utils_after status_cmd w)).
      apply Forall_impl. intros e He. cbn in *. tauto.
    + constructor; [cbn; tauto |].
      generalize (utils_emits_push_current force
                    (utils_after show_current_cmd
                       (final (GitUtils.is_detached_head
                                 (utils_after status_cmd w))))).
      apply Forall_impl. intros e He. cbn in *. tauto.
Qed.

(** On [main]: a target [develop] changes nothing. *)
Lemma push_on_a_branch_ignores_target_witness :
  @GitUtils.execute_git_push Worlds.on_main (Some "develop") false tt
  = @GitUtils.execute_git_push Worlds.on_main None false tt
  /\ commands (started (@GitUtils.execute_git_push Worlds.on_main
                          (Some "develop") false tt))
     = [ status_cmd; ["git"; "branch"]; show_current_cmd; show_current_cmd;
         push_cmd false "main" ].
Proof.
  split; [| reflexivity].
  apply (@push_on_a_branch_ignores_target Worlds.on_main (Some "develop") None
           false tt); reflexivity.
Defined.

(** X7. Once the branch to push is known, [execute_git_push] of
    [git_utils.py] starts [git push [--force] origin <branch>].  A failed
    push is followed by exactly one more, [git push --set-upstream origin
    <branch>], when and only when its text contains [no upstream branch] or
    [set-upstream] in any letter case; that second push never carries
    [--force].  The result is [True] exactly when the last push exited
    with status 0. *)
Theorem utils_push_retry_rule {R : Runtime} (force : bool) (w : world) :
  let q := utils_outcome show_current_cmd w in
  let b := utils_output q in
  let w1 := utils_after show_current_cmd w in
  let first := utils_outcome (push_cmd force b) w1 in
  let second :=
    utils_outcome (set_upstream_cmd b) (utils_after (push_cmd force b) w1) in
  let retried :=
    negb (exit_zero first)
    && GitUtils.indicates_missing_upstream (utils_output first) in
  exit_zero q = true ->
  Py.truthy b = true ->
  started (GitUtils.push_current force w)
  = (show_current_cmd, q) :: (push_cmd force b, first)
    :: (if retried then [(set_upstream_cmd b, second)] else [])
  /\ value (GitUtils.push_current force w)
     = (exit_zero first || (retried && exit_zero second))
  /\ GitUtils.indicates_missing_upstream (utils_output first)
     = Py.contains "no upstream branch" (Py.lower (utils_output first))
       || Py.contains "set-upstream" (Py.lower (utils_output first)).
Proof.
  cbv zeta. intros Hq Hb.
  assert (Hq' : fst (value (GitUtils.run_git_command
                              ["git"; "branch"; "--show-current"] None w))
                = true).
  { rewrite utils_run_value. exact Hq. }
  assert (Hb' : Py.truthy
                  (snd (value (GitUtils.run_git_command
                                 ["git"; "branch"; "--show-current"] None w)))
                = true).
  { rewrite utils_run_value. exact Hb. }
  destruct (utils_push_trace force w Hq' Hb') as [Hs Hv].
  rewrite Hs, Hv. clear Hs Hv Hq' Hb'.
  rewrite !utils_run_value, !utils_run_started, !utils_run_final.
  cbn [fst snd app].
  unfold utils_outcome, utils_after, show_current_cmd, push_cmd, set_upstream_cmd.
  destruct force; cbn [app];
    destruct (exit_zero (fst (subprocess_run _ None None
                                (snd (subprocess_run
                                        ["git"; "branch"; "--show-current"]
                                        None None w))))); cbn [negb andb orb];
    repeat split; reflexivity.
Qed.

(** A forced push of [dev] without upstream: refused, then accepted with
    [--set-upstream] and without [--force]. *)
Lemma utils_push_retry_rule_witness :
  let r := @GitUtils.push_current Worlds.no_upstream true tt in
  commands (started r)
  = [show_current_cmd; push_cmd true "dev"; set_upstream_cmd "dev"]
  /\ value r = true.
Proof.
  cbv zeta.
  pose proof (@utils_push_retry_rule Worlds.no_upstream true tt
                eq_refl eq_refl) as H.
  cbv zeta in H. destruct H as (Hs & Hv & _).
  split; [rewrite Hs | rewrite Hv]; reflexivity.
Defined.

(** X8. Without [--switch] and without [--push], [main] of [git_utils.py]
    only describes the repository: it starts [git branch] and
    [git symbolic-ref] queries, no checkout and no push, and exits with
    status 0 whatever they answered. *)
Theorem utils_main_status_is_read_only {R : Runtime} (a : GitUtils.args)
    (w : world) :
  GitUtils.switch a = false ->
  GitUtils.push a = false ->
  value (GitUtils.main a w) = 0%Z
  /\ Forall (fun e => In (utils_subcommand e) ["branch"; "symbolic-ref"])
       (started (GitUtils.main a w)).
Proof.
  intros Hswitch Hpush. unfold GitUtils.main. rewrite Hswitch, Hpush.
  split.
  - run_simp. reflexivity.
  - revert w.
    change (utils_emits ["branch"; "symbolic-ref"]
              (bind GitUtils.is_detached_head
                 (fun _ => bind GitUtils.get_available_branches
                    (fun _ => bind GitUtils.get_default_branch
                       (fun _ => ret 0%Z))))).
    repeat first
      [ utils_emits_by utils_emits_detached
      | utils_emits_by utils_emits_available
      | utils_emits_by utils_emits_default
      | utils_emits_step ].
Qed.

(** Without a [git] executable the description still exits with 0. *)
Lemma utils_main_status_is_read_only_witness :
  value (@GitUtils.main Worlds.no_git
           {| GitUtils.branch := None; GitUtils.force := false;
              GitUtils.push := false; GitUtils.switch := false |} tt) = 0%Z.
Proof.
  apply (@utils_main_status_is_read_only Worlds.no_git
           {| GitUtils.branch := None; GitUtils.force := false;
              GitUtils.push := false; GitUtils.switch := false |} tt);
    reflexivity.
Defined.

(** X9. [--switch] is looked at before [--push]: with [--switch] given,
    [main] of [git_utils.py] runs [switch_to_branch] and nothing else, so
    no push is started even when [--push] is given too, and the exit status
    is 0 exactly when the switch succeeded. *)
Theorem utils_main_switch_wins {R : Runtime} (a : GitUtils.args) (w : world) :
  GitUtils.switch a = true ->
  let r := GitUtils.switch_to_branch (GitUtils.branch a) w in
  started (GitUtils.main a w) = started r
  /\ final (GitUtils.main a w) = final r
  /\ (value (GitUtils.main a w) = 0%Z <-> value r = true)
  /\ Forall (fun e => utils_subcommand e <> "push") (started (GitUtils.main a w)).
Proof.
  intros Hswitch. cbv zeta. unfold GitUtils.main. rewrite Hswitch. run_simp.
  rewrite app_nil_r. repeat split.
  - destruct (value (GitUtils.switch_to_branch (GitUtils.branch a) w));
      [reflexivity | discriminate].
  - intros ->. reflexivity.
  - generalize (utils_emits_switch (GitUtils.branch a) w).
    apply Forall_impl. intros e He E. rewrite E in He. cbn in He.
    decompose [or] He; discriminate || contradiction.
Qed.

(** [--switch --push] from a detached HEAD: the switch to [main], and no
    push. *)
Lemma utils_main_switch_wins_witness :
  let a := {| GitUtils.branch := None; GitUtils.force := false;
              GitUtils.push := true; GitUtils.switch := true |} in
  value (@GitUtils.main Worlds.detached_main a tt) = 0%Z
  /\ Forall (fun e => utils_subcommand e <> "push")
       (started (@GitUtils.main Worlds.detached_main a tt)).
Proof.
  cbv zeta.
  pose proof (@utils_main_switch_wins Worlds.detached_main
                {| GitUtils.branch := None; GitUtils.force := false;
                   GitUtils.push := true; GitUtils.switch := true |} tt
                eq_refl) as H.
  cbv zeta in H. destruct H as (_ & _ & Hv & Hp).
  split; [apply Hv; reflexivity | exact Hp].
Defined.

(** ** Staging, [git_operations.py] *)

Section StagingOrder.
Context {R : Runtime}.
Variable self : GitOperations.t.

Lemma stage_each_run (paths : list string) (w : world) :
  let r := GitOperations.stage_each self paths w in
  (value r = true ->
   commands (started r) = map add_cmd paths
   /\ successes (started r) = repeat true (List.length paths))
  /\ (value r = false ->
      exists before path after,
        paths = before ++ path :: after
        /\ commands (started r) = map add_cmd (before ++ [path])
        /\ successes (started r) = repeat true (List.length before) ++ [false]).
Proof.
  cbv zeta. revert w.
  induction paths as [| path rest IH]; intros w;
    cbn [GitOperations.stage_each].
  - run_simp. split; [intros _; split; reflexivity | discriminate].
  - run_simp.
    destruct (exit_zero (ops_outcome self ["add"; path] w)) eqn:E; run_simp.
    + destruct (IH (ops_after self ["add"; path] w)) as [Htrue Hfalse].
      split.
      * intros H. destruct (Htrue H) as [Hc Hs].
        unfold commands, successes in *. cbn [map app List.length repeat fst snd].
        rewrite Hc, Hs, E. split; reflexivity.
      * intros H.
        destruct (Hfalse H) as (before & p & after & -> & Hc & Hs).
        exists (path :: before), p, after.
        unfold commands, successes in *. cbn [map app List.length repeat fst snd].
        rewrite Hc, Hs, E. repeat split; reflexivity.
    + split; [discriminate |]. intros _.
      exists [], path, rest.
      unfold commands, successes. cbn [map app List.length repeat fst snd].
      rewrite E. repeat split; reflexivity.
Qed.

Lemma stage_as_paths (files : option (list string)) (w : world) :
  GitOperations.stage self files w
  = GitOperations.stage_each self (staged_paths files) w.
Proof.
  assert (Hdot : forall w0,
             bind (GitOperations.run_git_command self ["add"; "."] true)
               (fun p => let '(success, _) := p in ret success) w0
             = GitOperations.stage_each self ["."] w0).
  { intros w0. cbn [GitOperations.stage_each].
    apply result_ext; run_simp;
      destruct (exit_zero (ops_outcome self ["add"; "."] w0)); reflexivity. }
  unfold GitOperations.stage, staged_paths.
  destruct files as [[| file rest] |]; [apply Hdot | reflexivity | apply Hdot].
Qed.

End StagingOrder.

(** X10. [execute_git_push] of the object stages the files it is given
    one [git add] at a time, in order, and stops at the first one that
    fails: the files after it are never added.  With no file list, or an
    empty one, it stages [.], that is everything. *)
Theorem staging_stops_at_first_failure {R : Runtime} (self : GitOperations.t)
    (files : option (list string)) (w : world) :
  let paths := staged_paths files in
  let r := GitOperations.stage self files w in
  (files = None \/ files = Some [] -> paths = ["."])
  /\ (value r = true ->
      commands (started r) = map add_cmd paths
      /\ successes (started r) = repeat true (List.length paths))
  /\ (value r = false ->
      exists before path after,
        paths = before ++ path :: after
        /\ commands (started r) = map add_cmd (before ++ [path])
        /\ successes (started r) = repeat true (List.length before) ++ [false]).
Proof.
  cbv zeta. rewrite stage_as_paths. split.
  - intros [-> | ->]; reflexivity.
  - apply stage_each_run.
Qed.

(** Three files, the second missing: two [git add], the third file is not
    staged. *)
Example staging_stops_example :
  let r := @GitOperations.stage Worlds.missing_file GitOperations.init
             (Some ["a.txt"; "b.txt"; "c.txt"]) tt in
  value r = false /\ commands (started r) = [add_cmd "a.txt"; add_cmd "b.txt"].
Proof. split; reflexivity. Qed.

(** ** Committing and pushing, [git_operations.py] *)

Section Commit.
Context {R : Runtime}.
Variable self : GitOperations.t.

Lemma commit_message_run (message : option string) (w : world) :
  GitOperations.commit_message message w = (message_used message w, w, []).
Proof.
  unfold GitOperations.commit_message, message_used.
  destruct message as [m |]; [| reflexivity].
  destruct (Py.truthy m); reflexivity.
Qed.

Lemma commit_message_value (message : option string) (w : world) :
  value (GitOperations.commit_message message w) = message_used message w.
Proof. rewrite commit_message_run. reflexivity. Qed.

Lemma commit_message_final (message : option string) (w : world) :
  final (GitOperations.commit_message message w) = w.
Proof. rewrite commit_message_run. reflexivity. Qed.

Lemma commit_message_started (message : option string) (w : world) :
  started (GitOperations.commit_message message w) = [].
Proof. rewrite commit_message_run. reflexivity. Qed.

Lemma stage_commit_push_run (branch : string) (message : option string)
    (files : option (list string)) (w : world) :
  let staging := GitOperations.stage self files w in
  let diff := ops_outcome self diff_args (final staging) in
  let w1 := ops_after self diff_args (final staging) in
  let msg := message_used message w1 in
  let commit := ops_outcome self (commit_args msg) w1 in
  let pushing :=
    GitOperations.push_branch self branch (ops_after self (commit_args msg) w1) in
  value staging = true ->
  exit_zero diff = false ->
  started (GitOperations.stage_commit_push self branch message files w)
  = started staging
    ++ (ops_argv diff_args, diff) :: (ops_argv (commit_args msg), commit)
       :: (if exit_zero commit then started pushing else [])
  /\ value (GitOperations.stage_commit_push self branch message files w)
     = (exit_zero commit && value pushing).
Proof.
  cbv zeta. intros Hstage Hdiff.
  unfold GitOperations.stage_commit_push, diff_args, commit_args in *.
  run_simp. rewrite Hstage. cbn [negb]. run_simp. rewrite Hdiff. run_simp.
  rewrite ?commit_message_value, ?commit_message_final, ?commit_message_started.
  cbn [app].
  match goal with
  | |- context [ops_outcome self ("commit" :: ?args) ?w1] =>
      destruct (exit_zero (ops_outcome self ("commit" :: args) w1))
  end; cbn [negb andb]; run_simp; rewrite ?app_nil_r; split; reflexivity.
Qed.

Lemma ops_push_success_ends (branch : string) (w : world) :
  value (GitOperations.push_branch self branch w) = true ->
  ends_ok (is_ops "push") (started (GitOperations.push_branch self branch w)).
Proof.
  destruct (ops_push_branch_trace self branch w) as [Hs Hv].
  cbv zeta in Hs, Hv. rewrite Hs, Hv.
  destruct (exit_zero (ops_outcome self ["push"; "origin"; branch] w)) eqn:E;
    cbn [orb].
  - intros _. apply ends_ok_one; [reflexivity | exact E].
  - intros H. apply ends_ok_cons. apply ends_ok_one; [reflexivity | exact H].
Qed.

End Commit.

(** X11. When something is staged ([git diff --cached --quiet] exits with
    a status other than 0), [execute_git_push] of the object commits with
    the caller's message, or with a dated default when the message is
    missing or empty.  A commit that fails ends the operation with [False]
    before any push is started; otherwise the result is that of the push. *)
Theorem commit_failure_stops_before_push {R : Runtime}
    (self : GitOperations.t) (message : option string)
    (files : option (list string)) (w : world) (branch : string) :
  let resolution := GitOperations.resolve_current_branch self w in
  let staging := GitOperations.stage self files (final resolution) in
  let diff := ops_outcome self diff_args (final staging) in
  let w1 := ops_after self diff_args (final staging) in
  let msg := message_used message w1 in
  let commit := ops_outcome self (commit_args msg) w1 in
  let pushing :=
    GitOperations.push_branch self branch (ops_after self (commit_args msg) w1) in
  let r := GitOperations.execute_git_push self message files w in
  value resolution = Some branch ->
  value staging = true ->
  exit_zero diff = false ->
  started r
  = started resolution ++ started staging
    ++ (ops_argv diff_args, diff) :: (ops_argv (commit_args msg), commit)
       :: (if exit_zero commit then started pushing else [])
  /\ value r = (exit_zero commit && value pushing)
  /\ (message = None \/ message = Some "" ->
      msg = ("自動コミット " ++ strftime_now w1)%string)
  /\ (forall m, message = Some m -> Py.truthy m = true -> msg = m).
Proof.
  cbv zeta. intros Hres Hstage Hdiff.
  destruct (stage_commit_push_run self branch message files
              (final (GitOperations.resolve_current_branch self w))
              Hstage Hdiff) as [Hs Hv].
  cbv zeta in Hs, Hv.
  unfold GitOperations.execute_git_push. run_simp. rewrite Hres, Hs, Hv.
  repeat split.
  - intros [-> | ->]; reflexivity.
  - intros m -> Hm. unfold message_used. rewrite Hm. reflexivity.
Qed.

(** No message and a refused commit: the dated default is used, and no push
    follows. *)
Lemma commit_failure_stops_before_push_witness :
  let r := @GitOperations.execute_git_push Worlds.commit_refused
             GitOperations.init None None tt in
  value r = false
  /\ commands (started r)
     = [ ops_argv ["branch"; "--show-current"]; add_cmd ".";
         ops_argv diff_args;
         ops_argv (commit_args "自動コミット 2025-08-16 12:00:00") ].
Proof.
  cbv zeta.
  pose proof (@commit_failure_stops_before_push Worlds.commit_refused
                GitOperations.init None None tt "main"
                eq_refl eq_refl eq_refl) as H.
  cbv zeta in H. destruct H as (Hs & Hv & _).
  split; [rewrite Hv | rewrite Hs]; reflexivity.
Defined.

(** X12. [execute_git_push] of the object returns [True] only when its
    last subprocess exited with status 0 and is either the check that
    nothing is staged ([git diff --cached --quiet]) or a [git push]: a
    failed resolution, staging or commit never ends in success. *)
Theorem ops_push_success_is_a_diff_or_push {R : Runtime}
    (self : GitOperations.t) (message : option string)
    (files : option (list string)) (w : world) :
  value (GitOperations.execute_git_push self message files w) = true ->
  ends_ok (fun cmd => is_ops "diff" cmd || is_ops "push" cmd)
    (started (GitOperations.execute_git_push self message files w)).
Proof.
  unfold GitOperations.execute_git_push. run_simp.
  destruct (value (GitOperations.resolve_current_branch self w))
    as [branch |]; run_simp; [| discriminate].
  set (w0 := final (GitOperations.resolve_current_branch self w)).
  destruct (value (GitOperations.stage self files w0)) eqn:Hstage.
  - destruct (exit_zero (ops_outcome self diff_args (final (GitOperations.stage self files w0))))
      eqn:Hdiff.
    + unfold GitOperations.stage_commit_push. run_simp. rewrite Hstage.
      cbn [negb]. run_simp. fold diff_args. rewrite Hdiff. run_simp.
      intros _. rewrite app_nil_r. apply ends_ok_app, ends_ok_app.
      apply ends_ok_one; [reflexivity | exact Hdiff].
    + destruct (stage_commit_push_run self branch message files w0 Hstage Hdiff)
        as [Hs Hv].
      cbv zeta in Hs, Hv. rewrite Hs, Hv.
      destruct (exit_zero (ops_outcome self (commit_args _) _));
        cbn [andb]; [| discriminate].
      intros H. apply ends_ok_app, ends_ok_app, ends_ok_cons, ends_ok_cons.
      apply (ends_ok_weaken (is_ops "push")).
      * intros cmd ->. apply orb_true_r.
      * apply ops_push_success_ends. exact H.
  - unfold GitOperations.stage_commit_push. run_simp. rewrite Hstage.
    cbn [negb]. run_simp. discriminate.
Qed.

(** A clean tree on [main]: success, and the last subprocess is the diff. *)
Lemma ops_push_success_is_a_diff_or_push_witness :
  ends_ok (fun cmd => is_ops "diff" cmd || is_ops "push" cmd)
    (started (@GitOperations.execute_git_push Worlds.clean_tree
                GitOperations.init None None tt)).
Proof.
  apply (@ops_push_success_is_a_diff_or_push Worlds.clean_tree
           GitOperations.init None None tt).
  reflexivity.
Defined.

(** ** What the object starts *)

Section OpsStarts.
Context {R : Runtime}.
Variable self : GitOperations.t.




Lemma emits_ensure (name : string) :
  emits ["branch"; "fetch"; "checkout"]
    (GitOperations.ensure_branch_available self name).
Proof.
  unfold GitOperations.ensure_branch_available,
    GitOperations.create_branch_from_remote, GitOperations.create_new_branch.
  repeat first [apply emits_get_available | emits_step].
Qed.



Lemma ops_available_started (w : world) :
  started (GitOperations.get_available_branches self w)
  = [ (ops_argv ops_local_listing, ops_outcome self ops_local_listing w);
      (ops_argv ops_remote_listing,
       ops_outcome self ops_remote_listing
         (ops_after self ops_local_listing w)) ].
Proof.
  unfold GitOperations.get_available_branches. run_simp. reflexivity.
Qed.


End OpsStarts.



(** X14. [ensure_branch_available] lists the branches and then: a name
    among the local branches needs nothing more and gives [True]; a name
    only among the remote ones is fetched into a local branch of the same
    name ([git fetch origin <name>:<name>]), without a checkout; a name in
    neither list is created from HEAD with [git checkout -b], which also
    switches to it.  In the last two cases the result is that of the one
    command. *)
Theorem ensure_branch_cases {R : Runtime} (self : GitOperations.t)
    (name : string) (w : world) :
  let listing := GitOperations.get_available_branches self w in
  let r := GitOperations.ensure_branch_available self name w in
  let fetched := ops_outcome self (fetch_branch_args name) (final listing) in
  let created := ops_outcome self ["checkout"; "-b"; name] (final listing) in
  (In name (ops_local_names self w) ->
   value r = true /\ started r = started listing)
  /\ (~ In name (ops_local_names self w) ->
      In name (ops_remote_names self w) ->
      value r = exit_zero fetched
      /\ started r
         = started listing ++ [(ops_argv (fetch_branch_args name), fetched)])
  /\ (~ In name (ops_local_names self w) ->
      ~ In name (ops_remote_names self w) ->
      value r = exit_zero created
      /\ started r
         = started listing ++ [(ops_argv ["checkout"; "-b"; name], created)]).
Proof.
  cbv zeta. unfold ops_local_names, ops_remote_names, fetch_branch_args,
    GitOperations.ensure_branch_available,
    GitOperations.create_branch_from_remote, GitOperations.create_new_branch.
  run_simp.
  destruct (value (GitOperations.get_available_branches self w)) as [l r].
  cbn [fst snd].
  split; [| split].
  - intros Hl. apply mem_In in Hl. rewrite Hl. run_simp.
    rewrite app_nil_r. split; reflexivity.
  - intros Hl Hr. apply mem_false in Hl. apply mem_In in Hr.
    rewrite Hl, Hr. run_simp. split; reflexivity.
  - intros Hl Hr. apply mem_false in Hl. apply mem_false in Hr.
    rewrite Hl, Hr. cbn [app]. run_simp. split; reflexivity.
Qed.

(** [release] exists on the remote only: it is fetched, not checked out. *)
Example ensure_remote_only_example :
  let r := @GitOperations.ensure_branch_available Worlds.remote_only
             GitOperations.init "release" tt in
  value r = true
  /\ commands (started r)
     = [ ops_argv ops_local_listing; ops_argv ops_remote_listing;
         ops_argv (fetch_branch_args "release") ].
Proof. split; reflexivity. Qed.

(** ** The default branch is a known branch *)

Lemma pick_In (priority available : list string) (b : string) :
  pick priority available = Some b -> In b available.
Proof.
  unfold pick.
  destruct (find (fun candidate => Py.mem candidate available) priority)
    as [c |] eqn:E.
  - intros [= <-]. apply find_some in E. apply mem_In. exact (proj2 E).
  - destruct available as [| x xs]; cbn; [discriminate |].
    intros [= <-]. left. reflexivity.
Qed.

Lemma pick_None (priority available : list string) :
  pick priority available = None <-> available = [].
Proof.
  split.
  - unfold pick. destruct (find _ priority); [discriminate |].
    destruct available; [reflexivity | discriminate].
  - intros ->. unfold pick.
    rewrite find_none_present; [reflexivity |]. intros c _ [].
Qed.

Lemma set_empty_iff {R : Runtime} (names : list string) :
  set_semantics R -> (list_of_set names = [] <-> names = []).
Proof.
  intros Hset. destruct (Hset names) as [_ Hin]. split.
  - intros E. rewrite E in Hin.
    destruct names as [| x xs]; [reflexivity |].
    exfalso. apply (proj2 (Hin x)). left. reflexivity.
  - intros ->.
    destruct (list_of_set []) as [| x xs]; [reflexivity |].
    exfalso. apply (proj1 (Hin x)). left. reflexivity.
Qed.

Section BestStarted.
Context {R : Runtime}.
Variable self : GitOperations.t.

Lemma ops_best_started (w : world) :
  started (GitOperations.find_best_branch self w)
  = (ops_argv ["fetch"; "origin"], ops_outcome self ["fetch"; "origin"] w)
    :: started (GitOperations.get_available_branches self
                  (ops_after self ["fetch"; "origin"] w)).
Proof.
  unfold GitOperations.find_best_branch, GitOperations.fetch_remote_branches.
  run_simp.
  destruct (value (GitOperations.get_available_branches self _)) as [l r].
  destruct (find _ _); run_simp;
    rewrite (app_nil_r (started (GitOperations.get_available_branches self _)));
    reflexivity.
Qed.

Lemma ops_fetch_final (w : world) :
  final (GitOperations.fetch_remote_branches self w)
  = ops_after self ["fetch"; "origin"] w.
Proof.
  unfold GitOperations.fetch_remote_branches. run_simp. reflexivity.
Qed.

End BestStarted.

(** X15. [find_best_branch] always starts three subprocesses, a
    [git fetch origin] whose failure it ignores and the two listings.  What
    it returns is a name of the two lists, and it returns [None] exactly
    when both lists are empty. *)
Theorem best_branch_is_listed {R : Runtime} (self : GitOperations.t)
    (w : world) :
  set_semantics R ->
  let w1 := ops_after self ["fetch"; "origin"] w in
  let names := ops_local_names self w1 ++ ops_remote_names self w1 in
  let r := GitOperations.find_best_branch self w in
  commands (started r)
  = [ ops_argv ["fetch"; "origin"]; ops_argv ops_local_listing;
      ops_argv ops_remote_listing ]
  /\ (forall b, value r = Some b -> In b names)
  /\ (value r = None <-> names = []).
Proof.
  intros Hset. cbv zeta.
  rewrite ops_best_started, ops_available_started, ops_best_value. cbv zeta.
  rewrite ops_fetch_final.
  split; [reflexivity | split].
  - intros b Hb. apply pick_In in Hb. apply (Hset _). exact Hb.
  - rewrite pick_None. apply set_empty_iff. exact Hset.
Qed.

(** [main] and [trunk] listed: the answer [main] is one of them, after a
    fetch and two listings. *)
Lemma best_branch_is_listed_witness :
  commands (started (@GitOperations.find_best_branch Worlds.remote_head_trunk
                       GitOperations.init tt))
  = [ ops_argv ["fetch"; "origin"]; ops_argv ops_local_listing;
      ops_argv ops_remote_listing ].
Proof.
  pose proof (@best_branch_is_listed Worlds.remote_head_trunk GitOperations.init
                tt (scripted_set_semantics _ _)) as H.
  cbv zeta in H. destruct H as (H & _). exact H.
Defined.

(** X16. [get_default_branch] starts one subprocess when
    [git symbolic-ref] resolves [origin/HEAD], and the two listings after
    it otherwise.  What it returns is the target of [origin/HEAD], which it
    does not look up among the branches, or a name of the listings; it
    returns [None] exactly when [origin/HEAD] is unresolved and nothing is
    listed. *)
Theorem default_branch_is_known {R : Runtime} (w : world) :
  set_semantics R ->
  let o := utils_outcome symbolic_ref w in
  let names := utils_collected (utils_after symbolic_ref w) in
  let r := GitUtils.get_default_branch w in
  commands (started r)
  = symbolic_ref
    :: match remote_default o with
       | Some _ => []
       | None => [["git"; "branch"]; ["git"; "branch"; "-r"]]
       end
  /\ (forall b, value r = Some b -> remote_default o = Some b \/ In b names)
  /\ (value r = None <-> remote_default o = None /\ names = []).
Proof.
  intros Hset. cbv zeta.
  rewrite utils_default_started, utils_default_value, utils_available_value,
    utils_available_started.
  destruct (remote_default (utils_outcome symbolic_ref w)) as [d |].
  - split; [reflexivity | split].
    + intros b Hb. left. exact Hb.
    + split; [discriminate | intros [E _]; discriminate].
  - split; [reflexivity | split].
    + intros b Hb. right. apply pick_In in Hb. apply (Hset _). exact Hb.
    + rewrite pick_None, (set_empty_iff _ Hset). tauto.
Qed.

(** [origin/HEAD] resolved to [trunk]: one subprocess. *)
Lemma default_branch_is_known_witness :
  commands (started (@GitUtils.get_default_branch Worlds.remote_head_trunk tt))
  = [symbolic_ref].
Proof.
  pose proof (@default_branch_is_known Worlds.remote_head_trunk tt
                (scripted_set_semantics _ _)) as H.
  cbv zeta in H. destruct H as (H & _). exact H.
Defined.

(** X17. [main] of [git_operations.py] with [--test-branch <name>] only
    prepares and checks out the branch: it starts [git branch], [git fetch]
    and [git checkout], never an add, a commit or a push, ignores
    [--message] and [--files], does not try the checkout when the
    preparation failed, and exits with 0 exactly when both steps succeeded.
    Without [--test-branch], or with an empty name, it runs
    [execute_git_push] and exits with 0 exactly when that returned [True]. *)
Theorem ops_main_modes {R : Runtime} (a : GitOperations.args) (w : world) :
  (forall name,
      GitOperations.test_branch a = Some name ->
      Py.truthy name = true ->
      let ensure :=
        GitOperations.ensure_branch_available GitOperations.init name w in
      let switch :=
        GitOperations.switch_to_branch GitOperations.init name (final ensure) in
      (value (GitOperations.main a w) = 0%Z
       <-> value ensure = true /\ value switch = true)
      /\ started (GitOperations.main a w)
         = started ensure ++ (if value ensure then started switch else [])
      /\ Forall (fun e => In (subcommand e) ["branch"; "fetch"; "checkout"])
           (started (GitOperations.main a w)))
  /\ (GitOperations.test_branch a = None
      \/ GitOperations.test_branch a = Some "" ->
      let push :=
        GitOperations.execute_git_push GitOperations.init
          (GitOperations.message a) (GitOperations.files a) w in
      started (GitOperations.main a w) = started push
      /\ (value (GitOperations.main a w) = 0%Z <-> value push = true)).
Proof.
  split.
  - intros name Hname Htruthy. cbv zeta.
    assert (Hs : started (GitOperations.main a w)
                 = started (GitOperations.ensure_branch_available
                              GitOperations.init name w)
                   ++ (if value (GitOperations.ensure_branch_available
                                   GitOperations.init name w)
                       then started
                              (GitOperations.switch_to_branch GitOperations.init
                                 name
                                 (final (GitOperations.ensure_branch_available
                                           GitOperations.init name w)))
                       else [])).
    { unfold GitOperations.main. rewrite Hname. cbn [Py.given].
      rewrite Htruthy. run_simp.
      destruct (value (GitOperations.ensure_branch_available _ name w));
        run_simp; [| reflexivity].
      destruct (value (GitOperations.switch_to_branch _ name _)); run_simp;
        rewrite app_nil_r; reflexivity. }
    split; [| split; [exact Hs |]].
    + unfold GitOperations.main. rewrite Hname. cbn [Py.given].
      rewrite Htruthy. run_simp.
      destruct (value (GitOperations.ensure_branch_available _ name w));
        run_simp.
      * destruct (value (GitOperations.switch_to_branch _ name _)); run_simp;
          split; try tauto; try discriminate.
        intros [_ E]. discriminate.
      * split; [discriminate | intros [E _]; discriminate].
    + rewrite Hs. apply Forall_app. split.
      * apply emits_ensure.
      * destruct (value (GitOperations.ensure_branch_available _ name w));
          [| constructor].
        unfold GitOperations.switch_to_branch. run_simp.
        constructor; [cbn; tauto | constructor].
  - intros Hnone. cbv zeta.
    assert (Hg : Py.given (GitOperations.test_branch a) = false).
    { destruct Hnone as [-> | ->]; reflexivity. }
    unfold GitOperations.main. rewrite Hg. run_simp.
    destruct (value (GitOperations.execute_git_push _ _ _ w)); run_simp;
      rewrite app_nil_r; split; try reflexivity; split; try reflexivity;
      discriminate.
Qed.

(** [--test-branch release] where [release] is on the remote only: fetched,
    then checked out; exit status 0. *)
Example ops_main_test_branch_example :
  let a := {| GitOperations.message := Some "ignored";
              GitOperations.files := Some ["ignored.txt"];
              GitOperations.test_branch := Some "release" |} in
  let r := @GitOperations.main Worlds.remote_only a tt in
  value r = 0%Z
  /\ commands (started r)
     = [ ops_argv ops_local_listing; ops_argv ops_remote_listing;
         ops_argv (fetch_branch_args "release");
         ops_argv ["checkout"; "release"] ].
Proof. split; reflexivity. Qed.

(** X18. When the object finds HEAD detached and still resolves a branch
    to push, the last subprocess of the resolution is a checkout that exited
    with status 0, and it names the branch that is returned:
    [git checkout <branch>], or [git checkout -b main] for [main].  Staging
    never starts from a detached HEAD. *)
Theorem detached_resolution_ends_in_checkout {R : Runtime}
    (self : GitOperations.t) (w : world) (branch : string) :
  value (GitOperations.get_current_branch self w) = None ->
  value (GitOperations.resolve_current_branch self w) = Some branch ->
  exists before cmd o,
    started (GitOperations.resolve_current_branch self w)
    = before ++ [(cmd, o)]
    /\ exit_zero o = true
    /\ (cmd = ops_argv ["checkout"; branch]
        \/ (cmd = ops_argv ["checkout"; "-b"; "main"] /\ branch = "main")).
Proof.
  intros Hnone. unfold GitOperations.resolve_current_branch.
  run_simp. rewrite Hnone. cbn [Py.given]. run_simp.
  set (q := GitOperations.get_current_branch self w).
  set (best := GitOperations.find_best_branch self (final q)).
  assert (Hmain :
            value (GitOperations.create_default_branch self (final best))
            = Some branch ->
            exists before cmd o,
              started q ++ started best
              ++ started (GitOperations.create_default_branch self (final best))
              = before ++ [(cmd, o)]
              /\ exit_zero o = true
              /\ (cmd = ops_argv ["checkout"; branch]
                  \/ (cmd = ops_argv ["checkout"; "-b"; "main"]
                      /\ branch = "main"))).
  { unfold GitOperations.create_default_branch, GitOperations.create_new_branch.
    cbn [app]. run_simp.
    destruct (exit_zero (ops_outcome self ["checkout"; "-b"; "main"] (final best)))
      eqn:E; cbn [negb]; run_simp; [| discriminate].
    intros [= <-].
    exists (started q ++ started best), (ops_argv ["checkout"; "-b"; "main"]),
      (ops_outcome self ["checkout"; "-b"; "main"] (final best)).
    rewrite app_nil_r, app_assoc. repeat split; [exact E |].
    right. split; reflexivity. }
  destruct (value best) as [target |]; cbn [Py.given negb]; [| exact Hmain].
  destruct (Py.truthy target); cbn [negb]; [| exact Hmain].
  run_simp.
  destruct (value (GitOperations.ensure_branch_available self target (final best)));
    cbn [negb]; run_simp; [| discriminate].
  unfold GitOperations.switch_to_branch. run_simp.
  match goal with
  | |- context [exit_zero (ops_outcome self ["checkout"; target] ?w1)] =>
      destruct (exit_zero (ops_outcome self ["checkout"; target] w1)) eqn:E
  end; cbn [negb]; run_simp; [| discriminate].
  intros [= <-].
  exists (started q ++ started best
          ++ started (GitOperations.ensure_branch_available self target
                        (final best))),
    (ops_argv ["checkout"; target]),
    (ops_outcome self ["checkout"; target]
       (final (GitOperations.ensure_branch_available self target (final best)))).
  split; [| split; [exact E | left; reflexivity]].
  rewrite ?app_nil_r, <- ?app_assoc. reflexivity.
Qed.

(** Detached, offline, [main] local: the resolution ends with the checkout
    of [main]. *)
Lemma detached_resolution_ends_in_checkout_witness :
  exists before cmd o,
    started (@GitOperations.resolve_current_branch Worlds.detached_offline
               GitOperations.init tt)
    = before ++ [(cmd, o)]
    /\ exit_zero o = true
    /\ (cmd = ops_argv ["checkout"; "main"]
        \/ (cmd = ops_argv ["checkout"; "-b"; "main"] /\ "main" = "main")).
Proof.
  apply (@detached_resolution_ends_in_checkout Worlds.detached_offline
           GitOperations.init tt "main"); reflexivity.
Defined.
